(** * Knowledge-organization core: relationship extraction, graph building
      and graph optimization

    A shallow embedding of
      app/models/relationship.py, app/models/graph.py, app/schemas/graph.py,
      app/core/relationship_extractor.py, app/core/graph_builder.py and
      app/core/graph_optimizer.py
    of the knowledge-organization service, with the properties its
    specification states about them.

    Conventions of the embedding:
    - Python floats are rationals ([Q]); float comparison is comparison of
      rationals and float equality is [Qeq].
    - a raised exception is the [Raise] case of [result].  Log records and
      Prometheus counters are not modelled, but the expressions evaluated to
      build a log record are: [logger] is a plain [logging.Logger], which
      has no method [get_correlation_id], so [logger.get_correlation_id()]
      raises [AttributeError] wherever it is evaluated;
    - a method called on an object whose class does not define it
      ([Graph.get_relationships], [Graph.analyze],
      [Neo4jConnection.begin_transaction], [Relationship.batch_save],
      [validate] and [id] on a [dict]) raises [AttributeError] as well;
    - [uuid.uuid4()] draws from a counter of fresh naturals, and
      [datetime.now()] is a clock reading passed to the operation;
    - the Neo4j connection injected into the optimizer is the list of
      persisted relationship rows, on which its Cypher statements act, and
      networkx is the library the optimizer and the builder compute with. *)

From Stdlib Require Import QArith ZArith List String Bool Lia.
From stdpp Require Import gmap strings list.

#[local] Open Scope string_scope.

(** ** Python preliminaries *)

Inductive exn :=
| RelationshipValidationError (msg : string)
| GraphValidationError (msg : string)
| GraphOperationError (msg : string)
| ValueError (msg : string)
| TypeError (msg : string)
| NameError (name : string)
| AttributeError (msg : string)
| KeyError (key : string)
| NetworkXError (msg : string)
| NetworkXPointlessConcept (msg : string)
| PowerIterationFailedConvergence
| ZeroDivisionError.

Inductive result (A : Type) :=
| Ok (a : A)
| Raise (e : exn).
Arguments Ok {A} a.
Arguments Raise {A} e.

Definition bind {A B : Type} (r : result A) (k : A -> result B) : result B :=
  match r with
  | Ok a => k a
  | Raise e => Raise e
  end.

Notation "'let*' x ':=' r 'in' k" := (bind r (fun x => k))
  (at level 10, x name, r at level 100, k at level 200).

(** Float comparisons [a <= b] and [a < b]. *)
Definition Qleb (a b : Q) : bool := Qle_bool a b.
Definition Qltb (a b : Q) : bool := negb (Qle_bool b a).

(** Python's [min(a, b)] and [max(a, b)] on floats: the first argument is
    kept unless the second is strictly smaller (resp. larger). *)
Definition py_min (a b : Q) : Q := if Qltb b a then b else a.
Definition py_max (a b : Q) : Q := if Qltb a b then b else a.

(** [needle in haystack] on [str]: substring test. *)
Fixpoint str_in (needle haystack : string) : bool :=
  String.prefix needle haystack ||
  match haystack with
  | EmptyString => false
  | String _ rest => str_in needle rest
  end.

(** [x in xs] on a list of strings. *)
Definition list_in (x : string) (xs : list string) : bool :=
  existsb (String.eqb x) xs.

(** Values stored in metadata dictionaries. *)
Inductive value :=
| VNone
| VNum (q : Q)
| VInt (z : Z)
| VStr (s : string).

(** The two library functions applied to strings: [bleach.clean(_, strip=True)]
    and [datetime.isoformat()]. *)
Class StringLib := {
  bleach_clean : string -> string;
  isoformat : Z -> string
}.

(** ** app/utils/logger.py *)

Module logger.

(** [logger = logging.getLogger('knowledge-organization')] (and
    [logging.getLogger(__name__)] in the core modules): the module-level
    function [get_correlation_id] is not a method of that object. *)
Definition get_correlation_id : result string :=
  Raise (AttributeError "'Logger' object has no attribute 'get_correlation_id'").

(** An [except Exception as e] handler that builds its log record with
    [logger.get_correlation_id()] before it re-raises: the exception that
    leaves it is the one raised while handling [e]. *)
Definition logged {A : Type} (e : exn) : result A :=
  let* _ := get_correlation_id in Raise e.

End logger.

(** ** app/models/relationship.py *)

Module Relationship.

Definition RELATIONSHIP_TYPES : list string :=
  ["IS_PREREQUISITE"; "IS_RELATED"; "CONTAINS"; "REFERENCES"; "EXTENDS"].

Record t := mk {
  type : string;
  source_id : string;
  target_id : string;
  weight : Q;
  metadata : gmap string value;
  id : nat;
  created_at : Z;
  updated_at : Z;
  version : Z
}.

Section Init.
Context `{StringLib}.

Definition sanitize_value (v : value) : value :=
  match v with
  | VStr s => VStr (bleach_clean s)
  | _ => v
  end.

Definition _sanitize_metadata (m : gmap string value) : gmap string value :=
  sanitize_value <$> m.

(** [__post_init__]: the type and the weight range are the only two
    checks; the metadata is sanitized and completed with defaults, the
    entries already present taking precedence. *)
Definition __post_init__ (now : Z) (self : t) : result t :=
  if negb (list_in (type self) RELATIONSHIP_TYPES) then
    Raise (RelationshipValidationError "Invalid relationship type")
  else if negb (Qleb 0 (weight self) && Qleb (weight self) 1) then
    Raise (RelationshipValidationError "Weight must be between 0.0 and 1.0")
  else
    let sanitized := _sanitize_metadata (metadata self) in
    let defaults : gmap string value :=
      <["version" := VInt (version self)]>
      (<["last_verified" := VStr (isoformat now)]>
      (<["source" := VStr "knowledge-organization-service"]> ∅)) in
    Ok (mk (type self) (source_id self) (target_id self) (weight self)
           (sanitized ∪ defaults)
           (id self) (created_at self) (updated_at self) (version self)).

(** The dataclass constructor [Relationship(type=..., source_id=...,
    target_id=..., weight=..., metadata=..., correlation_id=...)] with
    the other field defaults: a fresh uuid, the current time, version 1.
    The correlation id only goes into log records and is not kept. *)
Definition new (now : Z) (uuid : nat) (ty src tgt : string) (w : Q)
    (md : gmap string value) : result t :=
  __post_init__ now (mk ty src tgt w md uuid now now 1).

(** The same call without [correlation_id]: the generated [__init__]
    evaluates the default factories in field order, and that of
    [correlation_id] is [lambda: logger.get_correlation_id()]; the object
    is initialised, and [__post_init__] run, only once it has answered. *)
Definition new_without_correlation_id (now : Z) (uuid : nat) (ty src tgt : string)
    (w : Q) (md : gmap string value) : result t :=
  let* correlation_id := logger.get_correlation_id in
  new now uuid ty src tgt w md.
End Init.

(** Outcome of [async_update]: the updated object, or one of the two errors
    it raises. *)
Inductive update_outcome :=
| Updated (self' : t)
| InvalidUpdateProperties
| ModifiedByAnotherProcess.

Section Update.
Context `{StringLib}.
(** [float(s)] on a string, when the string denotes a number. *)
Variable parse_float : string -> option Q.
(** The store's [SET r += $properties] on one row. *)
Variable merge_properties : gmap string value -> t -> t.

(** [float(v)] *)
Definition to_float (v : value) : result Q :=
  match v with
  | VNum q => Ok q
  | VInt z => Ok (inject_Z z)
  | VStr s =>
      match parse_float s with
      | Some q => Ok q
      | None => Raise (ValueError "could not convert string to float")
      end
  | VNone => Raise (TypeError "float() argument must be a string or a real number")
  end.

(** [validate_properties]: the first test runs over the required fields
    that are keys of [properties]; an exception makes the answer [False]. *)
Definition validate_properties (properties : gmap string value) : bool :=
  let present :=
    List.filter (fun field => bool_decide (is_Some (properties !! field)))
                ["type"; "weight"] in
  if negb (forallb (fun field => bool_decide (is_Some (properties !! field))) present)
  then false
  else if match properties !! "type" with
          | Some (VStr s) => negb (list_in s RELATIONSHIP_TYPES)
          | Some _ => true
          | None => false
          end
  then false
  else match properties !! "weight" with
       | Some v =>
           match to_float v with
           | Ok q => Qleb 0 q && Qleb q 1
           | Raise _ => false
           end
       | None => true
       end.

(** The rows the update statement matches: same id, and the version the
    object was read at. *)
Definition matches (self row : t) : bool :=
  Nat.eqb (id row) (id self) && Z.eqb (version row) (version self).

(** The update statement on one row: properties merged, then
    [updated_at] and the new version set. *)
Definition update_row (now : Z) (self : t) (properties : gmap string value)
    (row : t) : t :=
  if matches self row then
    let row' := merge_properties properties row in
    mk (type row') (source_id row') (target_id row') (weight row') (metadata row')
       (id row') (created_at row') now (version self + 1)%Z
  else row.

(** [async_update] against the store: the statement returns the rows it
    matched, and no row means that the version has moved on. *)
Definition async_update (now : Z) (self : t) (properties : gmap string value)
    (store : list t) : update_outcome * list t :=
  if negb (validate_properties properties) then (InvalidUpdateProperties, store)
  else
    let sanitized_properties := _sanitize_metadata properties in
    let matched := List.filter (matches self) store in
    let store' := map (update_row now self sanitized_properties) store in
    match matched with
    | [] => (ModifiedByAnotherProcess, store')
    | _ =>
        (Updated (mk (type self) (source_id self) (target_id self) (weight self)
                     (sanitized_properties ∪ metadata self)
                     (id self) (created_at self) now (version self + 1)%Z),
         store')
    end.
End Update.

End Relationship.

(** ** app/schemas/graph.py *)

Module Schemas.

(** [RelationshipSchema.validate_source_target]: the root validator of the
    API schema, on the two endpoint fields. *)
Definition validate_source_target (source_id target_id : option string)
    : result (option string * option string) :=
  match source_id, target_id with
  | Some s, Some t =>
      if String.eqb s t then
        Raise (ValueError "Source and target nodes must be different")
      else Ok (source_id, target_id)
  | _, _ => Ok (source_id, target_id)
  end.

(** [_has_cycle]: [graph] maps a vertex to its successors, in the order
    of the edge list. *)
Definition neighbours (edges : list (string * string)) (vertex : string)
    : list string :=
  map snd (List.filter (fun e => String.eqb vertex e.1) edges).

(** The vertices that are keys of [graph], in order of first insertion. *)
Definition sources (edges : list (string * string)) : list string :=
  fold_left (fun acc e => if list_in e.1 acc then acc else (acc ++ [e.1])%list)
            edges [].

(** The nested [dfs]: [visited] is shared by all calls and returned,
    [path] is the set of vertices on the current branch.  [fuel] bounds the
    depth, which never exceeds the number of distinct vertices. *)
Fixpoint dfs (edges : list (string * string)) (fuel : nat)
    (visited path : list string) (vertex : string) : bool * list string :=
  match fuel with
  | 0%nat => (false, visited)
  | S fuel' =>
      let visited := (vertex :: visited)%list in
      let path := (vertex :: path)%list in
      fold_left
        (fun (st : bool * list string) neighbor =>
           let '(found, visited) := st in
           if found then (true, visited)
           else if negb (list_in neighbor visited) then
             dfs edges fuel' visited path neighbor
           else if list_in neighbor path then (true, visited)
           else (false, visited))
        (neighbours edges vertex) (false, visited)
  end.

Definition _has_cycle (edges : list (string * string)) : bool :=
  let fuel := S (2 * length edges) in
  fst (fold_left
         (fun (st : bool * list string) vertex =>
            let '(found, visited) := st in
            if found then (true, visited)
            else if negb (list_in vertex visited) then
              dfs edges fuel visited [] vertex
            else (false, visited))
         (sources edges) (false, [])).

(** [GraphSchema.validate_relationships], on the ids of the nodes, the
    endpoint pairs of the relationships and the graph type. *)
Definition validate_relationships (graph_type : string) (node_ids : list string)
    (relationships : list (string * string)) : result (list (string * string)) :=
  match node_ids with
  | [] => Ok relationships
  | _ =>
      match List.find (fun e => negb (list_in e.1 node_ids && list_in e.2 node_ids))
                      relationships with
      | Some _ => Raise (ValueError "node not found in graph nodes")
      | None =>
          if String.eqb graph_type "PREREQUISITE_GRAPH"
             && _has_cycle relationships then
            Raise (ValueError "Prerequisite graph cannot contain cycles")
          else Ok relationships
      end
  end.

End Schemas.

(** ** app/core/relationship_extractor.py *)

Module RelationshipExtractor.

Definition SIMILARITY_THRESHOLD : Q := 7 # 10.
Definition MAX_RELATIONSHIPS_PER_NODE : nat := 20.
Definition RELATIONSHIP_WEIGHTS : list (string * Q) :=
  [("IS_PREREQUISITE", 1%Q); ("IS_RELATED", 7 # 10); ("CONTAINS", 9 # 10);
   ("REFERENCES", 6 # 10); ("EXTENDS", 8 # 10)].
Definition BATCH_SIZE : Z := 100.
Definition CACHE_TTL : Z := 3600.

(** The value found under the key ["vector"]: a list or a tuple of
    floats, or something else. *)
Inductive vector_value :=
| ListVector (xs : list Q)
| TupleVector (xs : list Q)
| OtherVector.

(** A knowledge node: a [dict].  The keys ["id"], ["content"] and
    ["vector"] are the ones the builder asks for; the extractor reads
    ["id"] and ["vector"] by subscript and the other keys with [.get]. *)
Record node := mk_node {
  node_id : option string;
  content : option string;
  vector : option vector_value;
  level : option Z;
  scope : option string;
  node_type : option string;
  references : option (list string);
  quality_score : option Q
}.

(** [node['id']] and [node['vector']] *)
Definition item_id (n : node) : result string :=
  match node_id n with
  | Some i => Ok i
  | None => Raise (KeyError "id")
  end.

Definition item_vector (n : node) : result vector_value :=
  match vector n with
  | Some v => Ok v
  | None => Raise (KeyError "vector")
  end.

(** The [quality_factors] dictionary of [calculate_relationship_weight]. *)
Record quality_factors := mk_quality {
  source_quality : option Q;
  target_quality : option Q
}.

(** An empty [dict] is falsy. *)
Definition quality_truthy (qf : quality_factors) : bool :=
  match source_quality qf, target_quality qf with
  | None, None => false
  | _, _ => true
  end.

(** [dict.get(key, default)] on an association list. *)
Fixpoint dict_get (k : string) (d : list (string * Q)) (default : Q) : Q :=
  match d with
  | [] => default
  | (k', v) :: rest => if String.eqb k k' then v else dict_get k rest default
  end.

Definition determine_relationship_type (source_node target_node : node)
    (similarity_score : Q) : option string :=
  if Z.ltb (default 0%Z (level source_node)) (default 0%Z (level target_node))
     && Qltb (8 # 10) similarity_score then
    Some "IS_PREREQUISITE"
  else if str_in (default "" (scope source_node)) (default "" (scope target_node))
     && Qltb (85 # 100) similarity_score then
    Some "CONTAINS"
  else if bool_decide (node_type source_node = node_type target_node)
     && Qltb (9 # 10) similarity_score then
    Some "EXTENDS"
  else if existsb (fun ref => list_in ref (default [] (references target_node)))
                  (default [] (references source_node)) then
    Some "REFERENCES"
  else if Qleb SIMILARITY_THRESHOLD similarity_score then
    Some "IS_RELATED"
  else None.

Definition calculate_relationship_weight (relationship_type : string)
    (similarity_score : Q) (quality : option quality_factors) : Q :=
  let base_weight := dict_get relationship_type RELATIONSHIP_WEIGHTS (1 # 2) in
  let weight := (base_weight * similarity_score)%Q in
  let weight :=
    match quality with
    | Some qf =>
        if quality_truthy qf then
          let sq := default (1 # 2) (source_quality qf) in
          let tq := default (1 # 2) (target_quality qf) in
          let quality_modifier := ((sq + tq) / 2)%Q in
          (weight * quality_modifier)%Q
        else weight
    | None => weight
    end in
  py_max 0 (py_min 1 weight).

(** [sorted(relationships, key=lambda r: r.weight, reverse=True)]: a stable
    sort by decreasing weight. *)
Fixpoint insert_by_weight (r : Relationship.t) (l : list Relationship.t)
    : list Relationship.t :=
  match l with
  | [] => [r]
  | x :: rest =>
      if Qltb (Relationship.weight r) (Relationship.weight x)
      then x :: insert_by_weight r rest
      else r :: l
  end.

Definition sorted_by_weight_desc (l : list Relationship.t) : list Relationship.t :=
  foldr insert_by_weight [] l.

(** [r.metadata.get("similarity_score", 0) >= SIMILARITY_THRESHOLD]; a
    string or [None] cannot be compared with a float. *)
Definition meets_threshold (r : Relationship.t) : result bool :=
  match Relationship.metadata r !! "similarity_score" with
  | None => Ok (Qleb SIMILARITY_THRESHOLD 0)
  | Some (VNum q) => Ok (Qleb SIMILARITY_THRESHOLD q)
  | Some (VInt z) => Ok (Qleb SIMILARITY_THRESHOLD (inject_Z z))
  | Some _ => Raise (TypeError "'>=' not supported between these instances")
  end.

(** [[r for r in sorted_relationships if ...]] *)
Fixpoint apply_threshold (rels : list Relationship.t) : result (list Relationship.t) :=
  match rels with
  | [] => Ok []
  | r :: rest =>
      let* keep := meets_threshold r in
      let* rest' := apply_threshold rest in
      Ok (if keep : bool then r :: rest' else rest')
  end.

(** The loop enforcing the per-node limit: [node_relationships] counts, for
    every node id, the relationships kept so far that touch it. *)
Fixpoint enforce_limit (filtered : list Relationship.t)
    (node_relationships : gmap string nat) : list Relationship.t :=
  match filtered with
  | [] => []
  | rel :: rest =>
      let source_count := default 0 (node_relationships !! Relationship.source_id rel) in
      let target_count := default 0 (node_relationships !! Relationship.target_id rel) in
      if Nat.ltb source_count MAX_RELATIONSHIPS_PER_NODE
         && Nat.ltb target_count MAX_RELATIONSHIPS_PER_NODE then
        rel :: enforce_limit rest
                 (<[Relationship.target_id rel := S target_count]>
                  (<[Relationship.source_id rel := S source_count]> node_relationships))
      else enforce_limit rest node_relationships
  end.

Definition filter_relationships (relationships : list Relationship.t)
    : result (list Relationship.t) :=
  match relationships with
  | [] => Ok []
  | _ =>
      let sorted_relationships := sorted_by_weight_desc relationships in
      let* filtered := apply_threshold sorted_relationships in
      Ok (enforce_limit filtered ∅)
  end.

(** [self]: the injected similarity calculator, applied to the two
    arrays made of the vectors, and the relationship cache, keyed by the
    pair of node ids and holding the time of caching.  [uuid_supply] is
    the next value [uuid.uuid4()] hands out. *)
Record t := mk {
  _similarity_calculator : vector_value -> vector_value -> result Q;
  _relationship_cache : gmap (string * string) (Z * Relationship.t);
  uuid_supply : nat
}.

Definition _get_cached_relationship (now : Z) (self : t)
    (cache_key : string * string) : option Relationship.t :=
  match _relationship_cache self !! cache_key with
  | Some (timestamp, relationship) =>
      if Z.ltb (now - timestamp) CACHE_TTL then Some relationship else None
  | None => None
  end.

Definition _cache_relationship (now : Z) (self : t)
    (cache_key : string * string) (relationship : Relationship.t) : t :=
  mk (_similarity_calculator self)
     (<[cache_key := (now, relationship)]> (_relationship_cache self))
     (uuid_supply self).

Definition fresh_uuid (self : t) : nat * t :=
  (uuid_supply self,
   mk (_similarity_calculator self) (_relationship_cache self)
      (S (uuid_supply self))).

(** [[nodes[i:i + batch_size] for i in range(0, len(nodes), batch_size)]]
    for a positive [batch_size]. *)
Fixpoint chunks {A : Type} (fuel : nat) (batch_size : nat) (l : list A)
    : list (list A) :=
  match fuel, l with
  | 0%nat, _ => []
  | _, [] => []
  | S fuel', _ => take batch_size l :: chunks fuel' batch_size (drop batch_size l)
  end.

(** The same comprehension for any integer step: a negative step gives an
    empty [range], a zero step is refused by [range]. *)
Definition batches_of {A : Type} (batch_size : Z) (l : list A)
    : result (list (list A)) :=
  if Z.eqb batch_size 0 then Raise (ValueError "range() arg 3 must not be zero")
  else if Z.ltb batch_size 0 then Ok []
  else Ok (chunks (length l) (Z.to_nat batch_size) l).

(** [[(source, target) for i, source in enumerate(batch)
                        for target in batch[i + 1:]]] *)
Fixpoint node_pairs (batch : list node) : list (node * node) :=
  match batch with
  | [] => []
  | source :: rest => map (pair source) rest ++ node_pairs rest
  end.

Definition opt_str (o : option string) : value :=
  match o with Some s => VStr s | None => VNone end.

Section Extract.
Context `{StringLib}.

(** A similarity task with the two nodes it was created for: awaiting it
    gives the score or raises what the calculator raised. *)
Definition task : Type := result Q * node * node.

(** First loop over the pairs of a batch: a live cache entry is appended
    to [relationships] at once, any other pair becomes a similarity task. *)
Fixpoint lookup_pairs (now : Z) (self : t) (pairs : list (node * node))
    (relationships : list Relationship.t) (similarity_tasks : list task)
    : result (list Relationship.t * list task) :=
  match pairs with
  | [] => Ok (relationships, similarity_tasks)
  | (source, target) :: rest =>
      let* source_id := item_id source in
      let* target_id := item_id target in
      match _get_cached_relationship now self (source_id, target_id) with
      | Some cached_relationship =>
          lookup_pairs now self rest (relationships ++ [cached_relationship])
            similarity_tasks
      | None =>
          let* source_vector := item_vector source in
          let* target_vector := item_vector target in
          lookup_pairs now self rest relationships
            (similarity_tasks
             ++ [(_similarity_calculator self source_vector target_vector,
                  source, target)])
      end
  end.

(** Second loop: the similarity results are processed in task order.  The
    relationship is built by [Relationship(...)] without
    [correlation_id]. *)
Fixpoint process_tasks (now : Z) (self : t) (tasks : list task)
    (relationships : list Relationship.t)
    : result (list Relationship.t) * t :=
  match tasks with
  | [] => (Ok relationships, self)
  | (awaited, source, target) :: rest =>
      match awaited with
      | Raise e => (Raise e, self)
      | Ok similarity_score =>
          if Qleb SIMILARITY_THRESHOLD similarity_score then
            match determine_relationship_type source target similarity_score with
            | Some relationship_type =>
                let weight :=
                  calculate_relationship_weight relationship_type similarity_score
                    (Some (mk_quality
                             (Some (default (1 # 2) (quality_score source)))
                             (Some (default (1 # 2) (quality_score target))))) in
                match item_id source, item_id target with
                | Raise e, _ | _, Raise e => (Raise e, self)
                | Ok source_id, Ok target_id =>
                    let md : gmap string value :=
                      <["similarity_score" := VNum similarity_score]>
                      (<["extraction_timestamp" := VStr (isoformat now)]>
                      (<["source_type" := opt_str (node_type source)]>
                      (<["target_type" := opt_str (node_type target)]> ∅))) in
                    let '(uuid, self1) := fresh_uuid self in
                    match Relationship.new_without_correlation_id now uuid
                            relationship_type source_id target_id weight md with
                    | Raise e => (Raise e, self1)
                    | Ok relationship =>
                        let self2 :=
                          _cache_relationship now self1
                            (source_id, target_id) relationship in
                        process_tasks now self2 rest (relationships ++ [relationship])
                    end
                end
            | None => process_tasks now self rest relationships
            end
          else process_tasks now self rest relationships
      end
  end.

Fixpoint process_batches (now : Z) (self : t) (batches : list (list node))
    (relationships : list Relationship.t)
    : result (list Relationship.t) * t :=
  match batches with
  | [] => (Ok relationships, self)
  | batch :: rest =>
      match lookup_pairs now self (node_pairs batch) relationships [] with
      | Raise e => (Raise e, self)
      | Ok (rels, tasks) =>
          match process_tasks now self tasks rels with
          | (Raise e, self') => (Raise e, self')
          | (Ok rels', self') => process_batches now self' rest rels'
          end
      end
  end.

(** [extract_relationships]; its handler logs and re-raises. *)
Definition extract_relationships (now : Z) (self : t) (nodes : list node)
    (batch_size : option Z) : result (list Relationship.t) * t :=
  match nodes with
  | [] => (Ok [], self)
  | _ =>
      let requested :=
        match batch_size with
        | Some b => if Z.eqb b 0 then BATCH_SIZE else b
        | None => BATCH_SIZE
        end in
      let batch_size := Z.min requested (Z.of_nat (length nodes)) in
      match batches_of batch_size nodes with
      | Raise e => (Raise e, self)
      | Ok batches =>
          match process_batches now self batches [] with
          | (Raise e, self') => (Raise e, self')
          | (Ok relationships, self') =>
              (filter_relationships relationships, self')
          end
      end
  end.
End Extract.

End RelationshipExtractor.

(** ** networkx: the part of [DiGraph] the service uses *)

Module nx.

(** Attributes of an edge: the service stores a weight and, in the
    redundancy pass, the id of the relationship. *)
Record edge_data := mk_data {
  weight : Q;
  id : option nat
}.

(** A directed graph without parallel edges.  [nodes] and [edges] are in
    insertion order, and [edges] holds at most one entry per ordered pair
    of endpoints. *)
Record DiGraph := mk {
  nodes : list string;
  edges : list (string * string * edge_data)
}.

Definition empty : DiGraph := mk [] [].

Definition add_node (G : DiGraph) (n : string) : DiGraph :=
  if list_in n (nodes G) then G else mk (nodes G ++ [n]) (edges G).

Definition same_endpoints (u v : string) (e : string * string * edge_data) : bool :=
  String.eqb u e.1.1 && String.eqb v e.1.2.

(** [datadict.update(attr)]: the attributes given replace the old ones. *)
Definition update_data (old new : edge_data) : edge_data :=
  mk_data (weight new) (match id new with Some i => Some i | None => id old end).

Fixpoint set_edge (u v : string) (d : edge_data)
    (es : list (string * string * edge_data)) : list (string * string * edge_data) :=
  match es with
  | [] => [(u, v, d)]
  | e :: rest =>
      if same_endpoints u v e then (u, v, update_data e.2 d) :: rest
      else e :: set_edge u v d rest
  end.

(** [G.add_edge(u, v, **attr)] *)
Definition add_edge (G : DiGraph) (u v : string) (d : edge_data) : DiGraph :=
  let G1 := add_node (add_node G u) v in
  mk (nodes G1) (set_edge u v d (edges G1)).

(** [G[u][v]] *)
Definition get_edge (G : DiGraph) (u v : string) : option edge_data :=
  match List.find (same_endpoints u v) (edges G) with
  | Some e => Some e.2
  | None => None
  end.

Definition has_edge (G : DiGraph) (u v : string) : bool :=
  existsb (same_endpoints u v) (edges G).

Definition successors (G : DiGraph) (n : string) : list string :=
  map (fun e => e.1.2) (List.filter (fun e => String.eqb n e.1.1) (edges G)).

Definition predecessors (G : DiGraph) (n : string) : list string :=
  map (fun e => e.1.1) (List.filter (fun e => String.eqb n e.1.2) (edges G)).

(** [G.degree(n)]: in-degree plus out-degree, a self-loop counting twice. *)
Definition degree (G : DiGraph) (n : string) : nat :=
  (length (predecessors G n) + length (successors G n))%nat.

Definition number_of_nodes (G : DiGraph) : nat := length (nodes G).
Definition number_of_edges (G : DiGraph) : nat := length (edges G).

(** [G.edges()]: grouped by source node, in node order. *)
Definition edge_view (G : DiGraph) : list (string * string) :=
  flat_map (fun u => map (pair u) (successors G u)) (nodes G).

(** [nx.density(G)] of a directed graph. *)
Definition density (G : DiGraph) : Q :=
  let n := number_of_nodes G in
  let m := number_of_edges G in
  if (Nat.eqb m 0 || Nat.leb n 1) then 0
  else (inject_Z (Z.of_nat m) / inject_Z (Z.of_nat (n * (n - 1))))%Q.

(** Nodes reachable from [frontier] along at most [fuel] further edges. *)
Fixpoint reach (G : DiGraph) (fuel : nat) (seen : list string) : list string :=
  match fuel with
  | 0%nat => seen
  | S fuel' =>
      let next := flat_map (successors G) seen in
      reach G fuel'
        (fold_left (fun acc n => if list_in n acc then acc else (acc ++ [n])%list) next seen)
  end.

Definition reachable (G : DiGraph) (u v : string) : bool :=
  list_in v (reach G (number_of_nodes G) [u]).

(** [nx.is_strongly_connected(G)] *)
Definition is_strongly_connected (G : DiGraph) : result bool :=
  match nodes G with
  | [] => Raise (NetworkXPointlessConcept
                   "Connectivity is undefined for the null graph.")
  | _ => Ok (forallb (fun u => forallb (reachable G u) (nodes G)) (nodes G))
  end.

(** Depth-first enumeration behind [nx.all_simple_paths]: [visited] is the
    path walked so far, which ends in [u]; a path stops at the target. *)
Fixpoint paths_from (G : DiGraph) (fuel : nat) (visited : list string)
    (u target : string) : list (list string) :=
  match fuel with
  | 0%nat => []
  | S fuel' =>
      flat_map
        (fun child =>
           if list_in child visited then []
           else if String.eqb child target then [(visited ++ [child])%list]
           else paths_from G fuel' (visited ++ [child])%list child target)
        (successors G u)
  end.

(** [nx.all_simple_paths(G, source, target)] with the default cutoff
    [len(G) - 1]; no path is produced when the source is the target. *)
Definition all_simple_paths (G : DiGraph) (source target : string)
    : list (list string) :=
  if String.eqb source target then []
  else paths_from G (number_of_nodes G - 1) [source] source target.

Definition remove_one (n : string) (l : list string) : list string :=
  List.filter (fun x => negb (String.eqb n x)) l.

Definition inter (a b : list string) : list string :=
  List.filter (fun x => list_in x b) a.

(** [nx.clustering(G)] of an unweighted directed graph: for each node the
    number of directed triangles through it over twice the number of
    possible ones. *)
Definition clustering_of (G : DiGraph) (i : string) : Q :=
  let ipreds := remove_one i (predecessors G i) in
  let isuccs := remove_one i (successors G i) in
  let directed_triangles :=
    list_sum
      (map (fun j =>
              let jpreds := remove_one j (predecessors G j) in
              let jsuccs := remove_one j (successors G j) in
              (length (inter ipreds jpreds) + length (inter ipreds jsuccs)
               + length (inter isuccs jpreds) + length (inter isuccs jsuccs))%nat)
           (ipreds ++ isuccs)%list) in
  let dtotal := (length ipreds + length isuccs)%nat in
  let dbidirectional := length (inter ipreds isuccs) in
  if Nat.eqb directed_triangles 0 then 0
  else (inject_Z (Z.of_nat directed_triangles)
        / inject_Z ((Z.of_nat dtotal * (Z.of_nat dtotal - 1)
                     - 2 * Z.of_nat dbidirectional) * 2))%Q.

Definition clustering (G : DiGraph) : list (string * Q) :=
  map (fun n => (n, clustering_of G n)) (nodes G).

(** Sums are kept in lowest terms, which does not change their value. *)
Definition Qsum (xs : list Q) : Q := fold_left (fun a b => Qred (a + b)) xs 0%Q.

(** [nx.average_clustering(G)]: [sum(c) / len(c)]. *)
Definition average_clustering (G : DiGraph) : result Q :=
  match nodes G with
  | [] => Raise ZeroDivisionError
  | _ => Ok (Qsum (map snd (clustering G))
             / inject_Z (Z.of_nat (number_of_nodes G)))%Q
  end.

(** Length of a shortest path from [u] to [v], if there is one. *)
Definition dist (G : DiGraph) (u v : string) : option nat :=
  List.find (fun k => list_in v (reach G k [u])) (seq 0 (S (number_of_nodes G))).

(** Reachability when the direction of the edges is forgotten. *)
Fixpoint reach_undirected (G : DiGraph) (fuel : nat) (seen : list string)
    : list string :=
  match fuel with
  | 0%nat => seen
  | S fuel' =>
      let next := flat_map (fun n => (successors G n ++ predecessors G n)%list) seen in
      reach_undirected G fuel'
        (fold_left (fun acc n => if list_in n acc then acc else (acc ++ [n])%list)
                   next seen)
  end.

Definition is_weakly_connected (G : DiGraph) : bool :=
  match nodes G with
  | [] => false
  | u :: _ =>
      forallb (fun v => list_in v (reach_undirected G (number_of_nodes G) [u]))
              (nodes G)
  end.

(** [nx.average_shortest_path_length(G)] *)
Definition average_shortest_path_length (G : DiGraph) : result Q :=
  match nodes G with
  | [] => Raise (NetworkXPointlessConcept
                   "the null graph has no paths, thus there is no average shortest path length")
  | [_] => Ok 0%Q
  | _ =>
      if negb (is_weakly_connected G) then
        Raise (NetworkXError "Graph is not weakly connected.")
      else
        let n := Z.of_nat (number_of_nodes G) in
        let total :=
          list_sum (flat_map (fun u => map (fun v => default 0%nat (dist G u v))
                                           (nodes G)) (nodes G)) in
        Ok (inject_Z (Z.of_nat total) / inject_Z (n * (n - 1)))%Q
  end.

(** [nx.diameter(G)]: the largest eccentricity, defined only when every
    node reaches every node. *)
Definition diameter (G : DiGraph) : result Z :=
  match nodes G with
  | [] => Raise (ValueError "max() arg is an empty sequence")
  | _ =>
      if forallb (fun u => forallb (reachable G u) (nodes G)) (nodes G) then
        Ok (Z.of_nat
              (list_max (flat_map (fun u => map (fun v => default 0%nat (dist G u v))
                                                (nodes G)) (nodes G))))
      else
        Raise (NetworkXError
                 "Found infinite path length because the digraph is not strongly connected")
  end.

(** [nx.number_strongly_connected_components(G)]: a component is counted
    at its first node. *)
Fixpoint count_components (G : DiGraph) (earlier rest : list string) : nat :=
  match rest with
  | [] => 0
  | u :: rest' =>
      ((if existsb (fun v => reachable G u v && reachable G v u) earlier
        then 0 else 1)
       + count_components G (earlier ++ [u])%list rest')%nat
  end.

Definition number_strongly_connected_components (G : DiGraph) : nat :=
  count_components G [] (nodes G).

(** [nx.pagerank(G, weight='weight')]: power iteration with damping 0.85
    on the row-normalised weights, at most 100 rounds, tolerance 1e-6 per
    node; a node without outgoing weight spreads its rank uniformly. *)
Definition out_weight (G : DiGraph) (u : string) : Q :=
  Qsum (map (fun e => weight e.2) (List.filter (fun e => String.eqb u e.1.1) (edges G))).

Definition Qabs_diff (a b : Q) : Q := if Qltb a b then (b - a)%Q else (a - b)%Q.

Definition pagerank_step (G : DiGraph) (x : gmap string Q) : gmap string Q :=
  let N := inject_Z (Z.of_nat (number_of_nodes G)) in
  let rank u := default 0%Q (x !! u) in
  let dangling :=
    Qsum (map rank (List.filter (fun u => Qeq_bool (out_weight G u) 0) (nodes G))) in
  list_to_map
    (map (fun v =>
            let incoming :=
              Qsum (map (fun e => if Qeq_bool (out_weight G e.1.1) 0 then 0%Q
                                  else (rank e.1.1 * weight e.2 / out_weight G e.1.1)%Q)
                        (List.filter (fun e => String.eqb v e.1.2) (edges G))) in
            (v, Qred ((85 # 100) * (incoming + dangling / N) + (15 # 100) / N)%Q))
         (nodes G)).

Fixpoint pagerank_iter (G : DiGraph) (fuel : nat) (x : gmap string Q)
    : result (gmap string Q) :=
  match fuel with
  | 0%nat => Raise PowerIterationFailedConvergence
  | S fuel' =>
      let x' := pagerank_step G x in
      let err :=
        Qsum (map (fun v => Qabs_diff (default 0%Q (x' !! v)) (default 0%Q (x !! v)))
                  (nodes G)) in
      if Qltb err (inject_Z (Z.of_nat (number_of_nodes G)) * (1 # 1000000))%Q
      then Ok x'
      else pagerank_iter G fuel' x'
  end.

Definition pagerank (G : DiGraph) : result (gmap string Q) :=
  match nodes G with
  | [] => Ok ∅
  | _ =>
      let N := inject_Z (Z.of_nat (number_of_nodes G)) in
      pagerank_iter G 100 (list_to_map (map (fun v => (v, (1 / N)%Q)) (nodes G)))
  end.

End nx.

(** ** app/models/graph.py *)

(** The dictionary [calculate_metrics] returns. *)
Record metrics := mk_metrics {
  node_count : nat;
  edge_count : nat;
  density : Q;
  average_clustering : Q;
  average_shortest_path : Q;
  diameter : Z;
  average_degree : Q;
  strongly_connected_components : nat
}.

Module Graph.

Definition GRAPH_TYPES : list string :=
  ["KNOWLEDGE_GRAPH"; "TOPIC_GRAPH"; "PREREQUISITE_GRAPH"; "SEMANTIC_GRAPH"].
Definition MAX_BATCH_SIZE : nat := 1000.

(** [metadata] holds scalar entries; the two structured entries the
    optimizer and the builder write are kept beside it. *)
Record t := mk {
  name : string;
  type : string;
  metadata : gmap string value;
  optimization_metrics : option (metrics * metrics);
  build_info : option (Z * nat);
  nodes : list RelationshipExtractor.node;
  relationships : list Relationship.t;
  id : string;
  created_at : Z;
  updated_at : Z;
  version : Z
}.

(** Attribute lookups that fail: [self._db] is a [Neo4jConnection], whose
    class has no [begin_transaction]; [Relationship] has no [batch_save];
    the nodes handed to [add_node] are [dict]s, which have neither
    [validate] nor [id]; [Graph] itself has neither [get_relationships]
    nor [analyze]. *)
Definition no_attribute {A : Type} (object attribute : string) : result A :=
  Raise (AttributeError ("'" ++ object ++ "' object has no attribute '"
                         ++ attribute ++ "'")).

Definition begin_transaction : result unit :=
  no_attribute "Neo4jConnection" "begin_transaction".

Definition batch_save (rel_group : list Relationship.t) : result unit :=
  Raise (AttributeError "type object 'Relationship' has no attribute 'batch_save'").

Definition get_relationships (self : t) : result (list Relationship.t) :=
  no_attribute "Graph" "get_relationships".

Definition analyze (self : t) : result unit :=
  no_attribute "Graph" "analyze".

Section Init.
Context `{StringLib}.

(** [__post_init__]: the graph type is the only thing validated; the
    record of the closing [logger.info] is built with
    [logger.get_correlation_id()].  The handler logs and re-raises. *)
Definition __post_init__ (now : Z) (self : t) : result t :=
  if negb (list_in (type self) GRAPH_TYPES) then
    Raise (GraphValidationError "Invalid graph type")
  else
    let defaults : gmap string value :=
      <["version" := VInt (version self)]>
      (<["node_count" := VInt (Z.of_nat (length (nodes self)))]>
      (<["relationship_count" := VInt (Z.of_nat (length (relationships self)))]>
      (<["last_modified" := VStr (isoformat now)]> ∅))) in
    let self :=
      mk (name self) (type self) (metadata self ∪ defaults)
         (optimization_metrics self) (build_info self)
         (nodes self) (relationships self)
         (id self) (created_at self) (updated_at self) (version self) in
    let* correlation_id := logger.get_correlation_id in
    Ok self.

(** The dataclass constructor. *)
Definition new (now : Z) (uuid : string) (name type : string)
    (metadata : gmap string value)
    (nodes : list RelationshipExtractor.node)
    (relationships : list Relationship.t) : result t :=
  __post_init__ now
    (mk name type metadata None None nodes relationships uuid now now 1).

(** [add_node(node, skip_validation=False)] on a [dict]: the body starts
    with [node.validate()], and the handler evaluates [node.id] for its
    log record before it can raise [GraphOperationError]. *)
Definition add_node (now : Z) (self : t) (node : RelationshipExtractor.node)
    : result t :=
  let body : result t :=
    let* _ := no_attribute (A := unit) "dict" "validate" in
    let* tx := begin_transaction in
    let nodes' := (nodes self ++ [node])%list in
    Ok (mk (name self) (type self)
          (<["last_modified" := VStr (isoformat now)]>
           (<["node_count" := VInt (Z.of_nat (length nodes'))]> (metadata self)))
          (optimization_metrics self) (build_info self)
          nodes' (relationships self)
          (id self) (created_at self) (updated_at self) (version self + 1)%Z) in
  match body with
  | Ok self' => Ok self'
  | Raise e =>
      let* node_id := no_attribute (A := string) "dict" "id" in
      Raise (GraphOperationError "Failed to add node")
  end.

(** [Relationship.validate_properties(rel.__dict__)] *)
Definition validate_properties (rel : Relationship.t) : bool :=
  list_in (Relationship.type rel) Relationship.RELATIONSHIP_TYPES
  && Qleb 0 (Relationship.weight rel) && Qleb (Relationship.weight rel) 1.

(** The first loop of [add_relationships_batch]: a relationship that
    fails validation is reported, the record of the warning being built
    with [logger.get_correlation_id()]. *)
Fixpoint valid_relationships (batch : list Relationship.t)
    : result (list Relationship.t) :=
  match batch with
  | [] => Ok []
  | rel :: rest =>
      if negb (validate_properties rel) then
        let* correlation_id := logger.get_correlation_id in
        valid_relationships rest
      else
        let* rest' := valid_relationships rest in
        Ok (rel :: rest')
  end.

(** The types of a batch in the order of their first occurrence. *)
Definition group_keys (rels : list Relationship.t) : list string :=
  fold_left (fun acc r => if list_in (Relationship.type r) acc then acc
                          else (acc ++ [Relationship.type r])%list) rels [].

(** The loop inside the transaction: each group is saved, then added. *)
Fixpoint save_groups (groups : list (list Relationship.t))
    (relationships : list Relationship.t) : result (list Relationship.t) :=
  match groups with
  | [] => Ok relationships
  | rel_group :: rest =>
      let* _ := batch_save rel_group in
      save_groups rest (relationships ++ rel_group)%list
  end.

(** [add_relationships_batch]: whatever the body raises, the handler
    raises [GraphOperationError] in its place. *)
Definition add_relationships_batch (now : Z) (self : t)
    (batch : list Relationship.t) : result t :=
  let body : result t :=
    if Nat.ltb MAX_BATCH_SIZE (length batch) then
      Raise (GraphValidationError "Batch size exceeds maximum")
    else
      let* valid := valid_relationships batch in
      let grouped_relationships :=
        map (fun ty => List.filter
                         (fun r => String.eqb ty (Relationship.type r)) valid)
            (group_keys valid) in
      let* tx := begin_transaction in
      let* relationships' := save_groups grouped_relationships (relationships self) in
      Ok (mk (name self) (type self)
             (<["last_modified" := VStr (isoformat now)]>
              (<["relationship_count" := VInt (Z.of_nat (length relationships'))]>
               (metadata self)))
             (optimization_metrics self) (build_info self)
             (nodes self) relationships'
             (id self) (created_at self) (updated_at self) (version self + 1)%Z) in
  match body with
  | Ok self' => Ok self'
  | Raise e => Raise (GraphOperationError "Failed to add relationships batch")
  end.
End Init.

End Graph.

(** ** app/core/graph_builder.py *)

Module GraphBuilder.

Definition DEFAULT_GRAPH_TYPE : string := "KNOWLEDGE_GRAPH".
Definition MIN_NODES_REQUIRED : nat := 2.
Definition MAX_GRAPH_SIZE : Z := 10000.
Definition MIN_CONNECTIONS_PER_NODE : nat := 10.
Definition MAX_PARALLEL_TASKS : nat := 5.

(** [self]: the two injected components, as the calls the builder makes on
    them. *)
Record t := mk {
  _relationship_extractor :
    list RelationshipExtractor.node -> result (list Relationship.t);
  _graph_optimizer : Graph.t -> result Graph.t
}.

(** [isinstance(node["vector"], (list, tuple))] *)
Definition is_list_or_tuple (v : RelationshipExtractor.vector_value) : bool :=
  match v with
  | RelationshipExtractor.ListVector _ | RelationshipExtractor.TupleVector _ => true
  | RelationshipExtractor.OtherVector => false
  end.

(** The loop of [validate_nodes] over the nodes, [node_ids] being the ids
    seen so far: the three required keys, the duplicate test, the vector
    format. *)
Fixpoint validate_structure (nodes : list RelationshipExtractor.node)
    (node_ids : list string) : bool :=
  match nodes with
  | [] => true
  | node :: rest =>
      match RelationshipExtractor.node_id node, RelationshipExtractor.content node,
            RelationshipExtractor.vector node with
      | Some id, Some _, Some vector =>
          if list_in id node_ids then false
          else if negb (is_list_or_tuple vector) then false
          else validate_structure rest (id :: node_ids)
      | _, _, _ => false
      end
  end.

Definition validate_nodes (nodes : list RelationshipExtractor.node) : bool :=
  if Nat.ltb (length nodes) MIN_NODES_REQUIRED then false
  else if Z.ltb MAX_GRAPH_SIZE (Z.of_nat (length nodes)) then false
  else validate_structure nodes [].

(** The [DiGraph] built from the relationships of a graph. *)
Definition relationship_digraph (rels : list Relationship.t) : nx.DiGraph :=
  fold_left
    (fun G rel =>
       nx.add_edge G (Relationship.source_id rel) (Relationship.target_id rel)
         (nx.mk_data (Relationship.weight rel) None))
    rels nx.empty.

(** [validate_graph_complexity]: only the nodes of the [DiGraph], that is
    the endpoints of the relationships, are looked at; any exception makes
    the answer [False]. *)
Definition validate_graph_complexity (graph : Graph.t) : bool :=
  let G := relationship_digraph (Graph.relationships graph) in
  if existsb (fun node => Nat.ltb (nx.degree G node) MIN_CONNECTIONS_PER_NODE)
             (nx.nodes G) then false
  else
    match nx.is_strongly_connected G with
    | Raise _ => false
    | Ok false => false
    | Ok true =>
        let relationship_distribution := map (nx.degree G) (nx.nodes G) in
        match relationship_distribution with
        | [] => false
        | _ =>
            let avg_connections :=
              (inject_Z (Z.of_nat (list_sum relationship_distribution))
               / inject_Z (Z.of_nat (length relationship_distribution)))%Q in
            negb (Qltb avg_connections
                       (inject_Z (Z.of_nat MIN_CONNECTIONS_PER_NODE)))
        end
    end.

(** [update_graph_metadata]: the dictionary it would store is built from
    [graph.degree()], [graph.number_of_nodes()] and networkx functions
    applied to the [Graph] object, none of which [Graph] provides; the
    exception is caught, the metadata stays as it is and the answer is
    [False]. *)
Definition update_graph_metadata (graph : Graph.t) (build_info : Z * nat)
    : Graph.t * bool :=
  (graph, false).

Section Build.
Context `{StringLib}.

(** The [add_node] tasks gathered for the batches of nodes, in order. *)
Fixpoint add_nodes (now : Z) (graph : Graph.t)
    (nodes : list RelationshipExtractor.node) : result Graph.t :=
  match nodes with
  | [] => Ok graph
  | node :: rest =>
      let* graph' := Graph.add_node now graph node in
      add_nodes now graph' rest
  end.

Fixpoint add_relationship_batches (now : Z) (graph : Graph.t)
    (batches : list (list Relationship.t)) : result Graph.t :=
  match batches with
  | [] => Ok graph
  | batch :: rest =>
      let* graph' := Graph.add_relationships_batch now graph batch in
      add_relationship_batches now graph' rest
  end.

(** [build_graph]: [start_time] and [end_time] are the clock readings at
    entry and after validation of the complexity.  The record of the
    closing [logger.info] is built with [logger.get_correlation_id()]; the
    handler logs and re-raises. *)
Definition build_graph (start_time end_time : Z) (graph_uuid : string)
    (self : t) (nodes : list RelationshipExtractor.node)
    (graph_name : string) (metadata : gmap string value) : result Graph.t :=
  if negb (validate_nodes nodes) then
    Raise (GraphValidationError "Node validation failed")
  else
    let* graph :=
      Graph.new start_time graph_uuid graph_name DEFAULT_GRAPH_TYPE
        (metadata ∪
         (<["created_at" := VStr (isoformat start_time)]>
          (<["node_count" := VInt (Z.of_nat (length nodes))]>
          (<["source" := VStr "graph-builder"]> ∅))))
        [] [] in
    let batch_size := Nat.min (length nodes) MAX_PARALLEL_TASKS in
    let* graph := add_nodes start_time graph nodes in
    let* relationships := _relationship_extractor self nodes in
    let relationship_batches :=
      RelationshipExtractor.chunks (length relationships) batch_size relationships in
    let* graph := add_relationship_batches start_time graph relationship_batches in
    let* optimized_graph := _graph_optimizer self graph in
    if negb (validate_graph_complexity optimized_graph) then
      Raise (GraphValidationError "Graph complexity validation failed")
    else
      let build_duration := (end_time - start_time)%Z in
      let '(optimized_graph', _) :=
        update_graph_metadata optimized_graph
          (build_duration, length relationships) in
      let* correlation_id := logger.get_correlation_id in
      Ok optimized_graph'.
End Build.

End GraphBuilder.

(** ** app/core/graph_optimizer.py *)

Module GraphOptimizer.

Definition MIN_RELATIONSHIP_WEIGHT : Q := 1 # 10.
Definition MAX_RELATIONSHIP_WEIGHT : Q := 1.
Definition OPTIMIZATION_BATCH_SIZE : nat := 100.
Definition METRICS_CACHE_TTL : Z := 300.

(** The names bound at module level in graph_optimizer.py: its imports,
    its logger, its constants, its Prometheus metrics and its class. *)
Definition module_globals : list string :=
  ["nx"; "np"; "logging"; "asyncio"; "Counter"; "Gauge"; "CircuitBreaker";
   "Graph"; "Neo4jConnection"; "logger";
   "MIN_RELATIONSHIP_WEIGHT"; "MAX_RELATIONSHIP_WEIGHT";
   "OPTIMIZATION_BATCH_SIZE"; "CIRCUIT_BREAKER_THRESHOLD";
   "CIRCUIT_BREAKER_TIMEOUT"; "METRICS_CACHE_TTL"; "OPTIMIZATION_TIMEOUT";
   "OPTIMIZATION_COUNTER"; "OPTIMIZATION_DURATION"; "GRAPH_METRICS";
   "GraphOptimizer"].

(** Evaluation of a global name inside a method of the module. *)
Definition load_global (name : string) : result unit :=
  if list_in name module_globals then Ok tt else Raise (NameError name).

(** What the optimizer asks of networkx beyond the graph structure. *)
Record analytics := mk_analytics {
  pagerank : nx.DiGraph -> result (gmap string Q);
  clustering : nx.DiGraph -> list (string * Q);
  average_clustering : nx.DiGraph -> result Q;
  average_shortest_path_length : nx.DiGraph -> result Q;
  diameter : nx.DiGraph -> result Z;
  number_strongly_connected_components : nx.DiGraph -> nat
}.

(** [self]: [_db_conn] is the store, the persisted relationships;
    [_optimization_config] holds the optional ["min_clustering"] entry;
    [cleanup_tasks] are the [_cleanup_cache] tasks created, each with the
    time at which its sleep ends and the key it will pop; the event loop
    that runs them is outside the model. *)
Record t := mk {
  _db_conn : list Relationship.t;
  min_clustering : option Q;
  _metrics_cache : gmap string metrics;
  cleanup_tasks : list (Z * string)
}.

Definition with_store (self : t) (store : list Relationship.t) : t :=
  mk store (min_clustering self) (_metrics_cache self) (cleanup_tasks self).

(** The Cypher statement of the redundancy pass:
    [MATCH ()-[r:RELATIONSHIP]->() WHERE r.id IN $redundant_ids DELETE r]. *)
Definition delete_relationships (redundant_ids : list nat)
    (store : list Relationship.t) : list Relationship.t :=
  List.filter
    (fun r => negb (existsb (Nat.eqb (Relationship.id r)) redundant_ids)) store.

Definition set_weight (r : Relationship.t) (w : Q) : Relationship.t :=
  Relationship.mk (Relationship.type r) (Relationship.source_id r)
    (Relationship.target_id r) w (Relationship.metadata r) (Relationship.id r)
    (Relationship.created_at r) (Relationship.updated_at r)
    (Relationship.version r).

(** The Cypher statement of the weight pass:
    [UNWIND $updates AS update MATCH ()-[r {id: update.id}]->()
     SET r.weight = update.weight]. *)
Definition update_weights (updates : list (nat * Q))
    (store : list Relationship.t) : list Relationship.t :=
  fold_left
    (fun st (u : nat * Q) =>
       map (fun r => if Nat.eqb (Relationship.id r) u.1 then set_weight r u.2
                     else r) st)
    updates store.

(** The [DiGraph] of the redundancy pass, which also records the ids. *)
Definition digraph_with_ids (rels : list Relationship.t) : nx.DiGraph :=
  fold_left
    (fun G rel =>
       nx.add_edge G (Relationship.source_id rel) (Relationship.target_id rel)
         (nx.mk_data (Relationship.weight rel) (Some (Relationship.id rel))))
    rels nx.empty.

(** [G[u][v]['weight']]; every consecutive pair of a path of [G] is an
    edge of [G]. *)
Definition edge_weight (G : nx.DiGraph) (u v : string) : Q :=
  match nx.get_edge G u v with
  | Some d => nx.weight d
  | None => 0
  end.

(** [np.prod([G[path[i]][path[i+1]]['weight'] for i in range(len(path)-1)])] *)
Fixpoint path_strength (G : nx.DiGraph) (path : list string) : Q :=
  match path with
  | u :: (v :: _) as rest => (edge_weight G u v * path_strength G rest)%Q
  | _ => 1
  end.

(** [max(xs)] of a non-empty list of floats. *)
Definition list_max (xs : list Q) : Q :=
  match xs with
  | [] => 0
  | x :: rest => fold_left py_max rest x
  end.

(** The ids of the edges found redundant, in the order of [G.edges()]. *)
Definition redundant_edges (G : nx.DiGraph) : list nat :=
  flat_map
    (fun '(source, target) =>
       let paths := nx.all_simple_paths G source target in
       if Nat.ltb 1 (length paths) then
         let path_strengths := map (path_strength G) paths in
         match nx.get_edge G source target with
         | Some direct_edge =>
             if Qltb (nx.weight direct_edge) (list_max path_strengths) then
               match nx.id direct_edge with
               | Some i => [i]
               | None => []
               end
             else []
         | None => []
         end
       else [])
    (nx.edge_view G).

Definition remove_redundant_relationships (self : t)
    (relationships : list Relationship.t) : result bool * t :=
  let G := digraph_with_ids relationships in
  let redundant := redundant_edges G in
  match redundant with
  | [] => (Ok true, self)
  | _ => (Ok true, with_store self (delete_relationships redundant (_db_conn self)))
  end.

(** [np.clip(x, lo, hi)] *)
Definition clip (x lo hi : Q) : Q := py_min hi (py_max lo x).

Section Analytics.
Variable an : analytics.

(** [optimize_weights]; the handler builds its log record with
    [logger.get_correlation_id()]. *)
Definition optimize_weights (self : t) (relationships : list Relationship.t)
    : result bool * t :=
  let G := GraphBuilder.relationship_digraph relationships in
  match pagerank an G with
  | Raise e => (logger.logged e, self)
  | Ok pagerank_scores =>
      let weight_updates :=
        map (fun rel =>
               let source_importance :=
                 default 0%Q (pagerank_scores !! Relationship.source_id rel) in
               let target_importance :=
                 default 0%Q (pagerank_scores !! Relationship.target_id rel) in
               (Relationship.id rel,
                clip ((source_importance + target_importance) / 2
                      * Relationship.weight rel)%Q
                     MIN_RELATIONSHIP_WEIGHT MAX_RELATIONSHIP_WEIGHT))
            relationships in
      match weight_updates with
      | [] => (Ok true, self)
      | _ => (Ok true, with_store self (update_weights weight_updates (_db_conn self)))
      end
  end.

(** The body of the innermost loop of [rebalance_structure] for one
    predecessor/successor pair.  The parameters of the CREATE statement
    contain [str(uuid.uuid4())], so the name [uuid] is evaluated before
    the statement is sent. *)
Definition connect (G : nx.DiGraph) (node pred succ : string)
    (store : list Relationship.t) (next_uuid : nat)
    : result (list Relationship.t) :=
  if negb (nx.has_edge G pred succ) then
    let weight := py_min (edge_weight G pred node) (edge_weight G node succ) in
    if Qltb MIN_RELATIONSHIP_WEIGHT weight then
      let* _ := load_global "uuid" in
      Ok (store ++ [Relationship.mk "IS_RELATED" pred succ weight ∅ next_uuid 0 0 1])%list
    else Ok store
  else Ok store.

(** The three nested loops; a statement already sent stays applied when
    a later one fails. *)
Fixpoint connect_all (G : nx.DiGraph) (pairs : list (string * string * string))
    (store : list Relationship.t) (next_uuid : nat)
    : result unit * list Relationship.t :=
  match pairs with
  | [] => (Ok tt, store)
  | (node, pred, succ) :: rest =>
      match connect G node pred succ store next_uuid with
      | Raise e => (Raise e, store)
      | Ok store' => connect_all G rest store' (S next_uuid)
      end
  end.

(** The nodes whose clustering coefficient is below the threshold. *)
Definition rebalance_nodes (self : t) (G : nx.DiGraph) : list string :=
  map fst
    (List.filter
       (fun nc : string * Q => Qltb nc.2 (default (3 # 10) (min_clustering self)))
       (clustering an G)).

(** The (node, predecessor, successor) triples in the order of the
    three nested loops. *)
Definition rebalance_candidates (self : t) (G : nx.DiGraph)
    : list (string * string * string) :=
  flat_map
    (fun node =>
       flat_map
         (fun pred => map (fun succ => (node, pred, succ)) (nx.successors G node))
         (nx.predecessors G node))
    (rebalance_nodes self G).

(** [rebalance_structure]: the body starts with [await graph.analyze()],
    then rebuilds the graph from [await graph.get_relationships()] and
    tries every candidate pair of every node below the clustering
    threshold in turn; the handler builds its log record with
    [logger.get_correlation_id()]. *)
Definition rebalance_structure (self : t) (graph : Graph.t) (next_uuid : nat)
    : result bool * t :=
  let body : result bool * t :=
    match Graph.analyze graph with
    | Raise e => (Raise e, self)
    | Ok analysis_results =>
        match Graph.get_relationships graph with
        | Raise e => (Raise e, self)
        | Ok relationships =>
            let G := GraphBuilder.relationship_digraph relationships in
            match connect_all G (rebalance_candidates self G) (_db_conn self)
                    next_uuid with
            | (Raise e, store') => (Raise e, with_store self store')
            | (Ok _, store') => (Ok true, with_store self store')
            end
        end
    end in
  match body with
  | (Raise e, self') => (logger.logged e, self')
  | done => done
  end.

Definition cache_key (graph : Graph.t) : string := "metrics:" ++ Graph.id graph.

(** The dictionary of metrics of a [DiGraph], its entries evaluated in
    order. *)
Definition compute_metrics (G : nx.DiGraph) : result metrics :=
  let node_count := nx.number_of_nodes G in
  let edge_count := nx.number_of_edges G in
  let density := nx.density G in
  let* average_clustering := average_clustering an G in
  let* average_shortest_path := average_shortest_path_length an G in
  let* diameter := diameter an G in
  let* average_degree :=
    match nx.nodes G with
    | [] => Raise ZeroDivisionError
    | _ => Ok (inject_Z (Z.of_nat (list_sum (map (nx.degree G) (nx.nodes G))))
               / inject_Z (Z.of_nat (nx.number_of_nodes G)))%Q
    end in
  Ok (mk_metrics node_count edge_count density average_clustering
        average_shortest_path diameter average_degree
        (number_strongly_connected_components an G)).

(** [calculate_metrics]: a cached dictionary is returned as it is;
    otherwise the relationships are asked of the graph with
    [await graph.get_relationships()], the metrics computed and cached
    under the graph id, and a [_cleanup_cache] task created whose sleep
    ends [METRICS_CACHE_TTL] seconds later.  The handler builds its log
    record with [logger.get_correlation_id()]. *)
Definition calculate_metrics (now : Z) (self : t) (graph : Graph.t)
    : result metrics * t :=
  match _metrics_cache self !! cache_key graph with
  | Some cached => (Ok cached, self)
  | None =>
      let body : result metrics :=
        let* relationships := Graph.get_relationships graph in
        compute_metrics (GraphBuilder.relationship_digraph relationships) in
      match body with
      | Raise e => (logger.logged e, self)
      | Ok metrics =>
          (Ok metrics,
           mk (_db_conn self) (min_clustering self)
              (<[cache_key graph := metrics]> (_metrics_cache self))
              (cleanup_tasks self ++ [((now + METRICS_CACHE_TTL)%Z, cache_key graph)])%list)
      end
  end.

(** The loop of [optimize] over the batches. *)
Fixpoint run_passes (self : t) (batches : list (list Relationship.t))
    : result unit * t :=
  match batches with
  | [] => (Ok tt, self)
  | batch :: rest =>
      match remove_redundant_relationships self batch with
      | (Raise e, self') => (Raise e, self')
      | (Ok _, self1) =>
          match optimize_weights self1 batch with
          | (Raise e, self') => (Raise e, self')
          | (Ok _, self2) => run_passes self2 rest
          end
      end
  end.

(** [optimize], with monitoring enabled.  [start_time] is the clock at
    the first call of [calculate_metrics], [end_time] at the second.  Its
    first statement is a [logger.info] whose record is built with
    [logger.get_correlation_id()], and so are the closing one and the
    record of the handler. *)
Definition optimize (start_time end_time : Z) (next_uuid : nat) (self : t)
    (graph : Graph.t) : result Graph.t * t :=
  let body : result Graph.t * t :=
    match logger.get_correlation_id with
    | Raise e => (Raise e, self)
    | Ok _ =>
    match calculate_metrics start_time self graph with
    | (Raise e, self') => (Raise e, self')
    | (Ok initial_metrics, self0) =>
    match Graph.get_relationships graph with
    | Raise e => (Raise e, self0)
    | Ok relationships =>
        let batches :=
          RelationshipExtractor.chunks (length relationships)
            OPTIMIZATION_BATCH_SIZE relationships in
        match run_passes self0 batches with
        | (Raise e, self') => (Raise e, self')
        | (Ok _, self1) =>
        match rebalance_structure self1 graph next_uuid with
        | (Raise e, self') => (Raise e, self')
        | (Ok _, self2) =>
        match calculate_metrics end_time self2 graph with
        | (Raise e, self') => (Raise e, self')
        | (Ok final_metrics, self3) =>
            let graph' :=
              Graph.mk (Graph.name graph) (Graph.type graph)
                (<["last_optimized" := VInt end_time]> (Graph.metadata graph))
                (Some (initial_metrics, final_metrics))
                (Graph.build_info graph)
                (Graph.nodes graph) (Graph.relationships graph)
                (Graph.id graph) (Graph.created_at graph)
                (Graph.updated_at graph) (Graph.version graph) in
            match logger.get_correlation_id with
            | Raise e => (Raise e, self3)
            | Ok _ => (Ok graph', self3)
            end
        end
        end
        end
    end
    end
    end in
  match body with
  | (Raise e, self') => (logger.logged e, self')
  | done => done
  end.
End Analytics.

(** networkx itself as the provider of the analytics. *)
Definition networkx : analytics :=
  mk_analytics nx.pagerank nx.clustering nx.average_clustering
    nx.average_shortest_path_length nx.diameter
    nx.number_strongly_connected_components.

End GraphOptimizer.

(** ** Vocabulary of the specification *)

Module Spec.

(** The closed set of relationship types. *)
Inductive rel_type :=
| IS_PREREQUISITE | IS_RELATED | CONTAINS | REFERENCES | EXTENDS.

Definition type_name (ty : rel_type) : string :=
  match ty with
  | IS_PREREQUISITE => "IS_PREREQUISITE"
  | IS_RELATED => "IS_RELATED"
  | CONTAINS => "CONTAINS"
  | REFERENCES => "REFERENCES"
  | EXTENDS => "EXTENDS"
  end.

(** "base_weight is a fixed per-type constant (prerequisite 1.0, contains
    0.9, extends 0.8, related 0.7, references 0.6)". *)
Definition base_weight (ty : rel_type) : Q :=
  match ty with
  | IS_PREREQUISITE => 1
  | CONTAINS => 9 # 10
  | EXTENDS => 8 # 10
  | IS_RELATED => 7 # 10
  | REFERENCES => 6 # 10
  end.

(** "clamp(x, lo, hi)". *)
Definition clamp (x lo hi : Q) : Q :=
  if Qlt_le_dec x lo then lo else if Qlt_le_dec hi x then hi else x.

(** A relationship touches a node id when the id is its source or its
    target. *)
Definition touches (n : string) (r : Relationship.t) : bool :=
  String.eqb n (Relationship.source_id r) || String.eqb n (Relationship.target_id r).

(** Number of relationships of a list that touch a node id. *)
Definition fan_out (n : string) (rels : list Relationship.t) : nat :=
  length (List.filter (touches n) rels).

(** The entry of a node id in the [node_relationships] dictionary, zero
    when it has none. *)
Definition count_of (counts : gmap string nat) (n : string) : nat :=
  default 0%nat (counts !! n).

(** The list a call returned, empty when it raised. *)
Definition output {A : Type} (r : result (list A)) : list A :=
  match r with
  | Ok l => l
  | Raise _ => []
  end.

(** The same for a call that also returns the new state of its object. *)
Definition returned {A S : Type} (r : result (list A) * S) : list A :=
  output r.1.

(** Type and endpoints of a relationship. *)
Definition edge_of (r : Relationship.t) : string * string * string :=
  (Relationship.type r, Relationship.source_id r, Relationship.target_id r).

(** Strings free of markup, which [bleach.clean] leaves as they are, and
    a clock whose readings are printed as the epoch. *)
Definition plain_strings : StringLib :=
  {| bleach_clean := fun s => s;
     isoformat := fun _ => "1970-01-01T00:00:00+00:00" |}.

(** A node carrying nothing but an id, a content and a vector. *)
Definition bare_node (id : string) : RelationshipExtractor.node :=
  RelationshipExtractor.mk_node (Some id) (Some "text")
    (Some (RelationshipExtractor.ListVector [1%Q])) None None None None None.

(** The same node with a level. *)
Definition levelled_node (id : string) (level : Z) : RelationshipExtractor.node :=
  RelationshipExtractor.mk_node (Some id) (Some "text")
    (Some (RelationshipExtractor.ListVector [1%Q])) (Some level) None None None None.

(** An extractor with an empty cache whose similarity calculator answers
    the same score for every pair. *)
Definition constant_similarity (score : Q) : RelationshipExtractor.t :=
  RelationshipExtractor.mk (fun _ _ => Ok score) ∅ 0.

(** A bare relationship row. *)
Definition typed_edge (ty : string) (id : nat) (s t : string) (w : Q)
    : Relationship.t :=
  Relationship.mk ty s t w ∅ id 0 0 1.

Definition edge : nat -> string -> string -> Q -> Relationship.t :=
  typed_edge "IS_RELATED".

Definition endpoints (r : Relationship.t) : string * string :=
  (Relationship.source_id r, Relationship.target_id r).

(** One relationship for every ordered pair of distinct ids. *)
Definition complete_digraph (ids : list string) : list Relationship.t :=
  imap (fun i (e : string * string) => edge i e.1 e.2 (1 # 2))
    (flat_map (fun u => flat_map (fun v => if String.eqb u v then [] else [(u, v)])
                                 ids) ids).

(** The rebalancing pass reaches the creation of an edge from [pred] to
    [succ]: there is no such edge yet and the candidate weight
    [min(pred-edge weight, succ-edge weight)] exceeds 0.1. *)
Definition insertion_attempted (G : nx.DiGraph) (node pred succ : string) : bool :=
  negb (nx.has_edge G pred succ)
  && Qltb GraphOptimizer.MIN_RELATIONSHIP_WEIGHT
       (py_min (GraphOptimizer.edge_weight G pred node)
               (GraphOptimizer.edge_weight G node succ)).

(** The cycle A -> B -> C -> D -> A with weights 1. *)
Definition four_cycle : list Relationship.t :=
  [edge 1 "A" "B" 1; edge 2 "B" "C" 1; edge 3 "C" "D" 1; edge 4 "D" "A" 1].

(** A graph object over the given relationships. *)
Definition graph_of (rels : list Relationship.t) : Graph.t :=
  Graph.mk "g" "KNOWLEDGE_GRAPH" ∅ None None [] rels "graph-1" 0 0 1.

(** An optimizer over the given store, with the default configuration and
    an empty metrics cache. *)
Definition optimizer_on (store : list Relationship.t) : GraphOptimizer.t :=
  GraphOptimizer.mk store None ∅ [].

End Spec.

(** ** Further vocabulary *)

Module Extra.

(** The weights never increase along the list. *)
Fixpoint descending (rels : list Relationship.t) : Prop :=
  match rels with
  | [] => True
  | r :: rest =>
      Forall (fun r' => (Relationship.weight r' <= Relationship.weight r)%Q) rest
      /\ descending rest
  end.

(** A relationship row carrying a similarity score in its metadata. *)
Definition scored_edge (id : nat) (s t : string) (w score : Q) : Relationship.t :=
  Relationship.mk "IS_RELATED" s t w {["similarity_score" := VNum score]} id 0 0 1.




(** A node dictionary with the three keys the builder requires, its
    vector being a list or a tuple. *)
Definition complete_node (node : RelationshipExtractor.node) : Prop :=
  RelationshipExtractor.node_id node <> None
  /\ RelationshipExtractor.content node <> None
  /\ exists v, RelationshipExtractor.vector node = Some v
               /\ GraphBuilder.is_list_or_tuple v = true.

(** [new] is [old] with, at most, another weight. *)
Definition same_but_weight (old new : Relationship.t) : Prop :=
  GraphOptimizer.set_weight old (Relationship.weight new) = new.

(** The id of [r] is the id of a relationship of the batch. *)
Definition in_batch (batch : list Relationship.t) (r : Relationship.t) : bool :=
  existsb (fun b => Nat.eqb (Relationship.id b) (Relationship.id r)) batch.

(** Three nodes linked completely, as a store and as a graph object. *)
Definition triangle : list Relationship.t :=
  Spec.complete_digraph ["a"; "b"; "c"].

(** A single relationship a -> b. *)
Definition single_edge : list Relationship.t := [Spec.edge 1 "a" "b" 1].

(** What the weight pass may do to one row, given the updates it sends:
    a row whose id no update names stays as it is, another row gets the
    weight of an update that names it. *)
Definition updated_by (updates : list (nat * Q)) (old new : Relationship.t) : Prop :=
  same_but_weight old new
  /\ ((new = old /\ forall u, In u updates -> u.1 <> Relationship.id old)
      \/ exists u, In u updates /\ u.1 = Relationship.id old
                   /\ Relationship.weight new = u.2).







(** There is a walk of at least one edge from the first vertex to the
    second. *)
Inductive walk (edges : list (string * string)) : string -> string -> Prop :=
| walk_edge u v : In (u, v) edges -> walk edges u v
| walk_step u v w : walk edges u v -> In (v, w) edges -> walk edges u w.

(** The endpoints of the edges. *)
Definition vertices (edges : list (string * string)) : list string :=
  flat_map (fun e : string * string => [e.1; e.2]) edges.

(** The state of the depth-first search between two steps: the vertices
    of the current branch are visited, and a visited vertex off the branch
    is finished, that is, its successors are finished too and it lies on
    no closed walk. *)
Definition search_inv (edges : list (string * string)) (visited path : list string)
    : Prop :=
  (forall p, In p path -> In p visited)
  /\ forall u, In u visited -> ~ In u path ->
       (forall n, In (u, n) edges -> In n visited /\ ~ In n path)
       /\ ~ walk edges u u.

End Extra.

(** * Properties *)

(** ** Floats *)

Lemma Qleb_true (a b : Q) : Qleb a b = true <-> (a <= b)%Q.
Proof. unfold Qleb. apply Qle_bool_iff. Qed.

Lemma Qleb_false (a b : Q) : Qleb a b = false <-> (b < a)%Q.
Proof.
  unfold Qleb. split; intros Hf.
  - apply Qnot_le_lt. intros Hle. apply Qle_bool_iff in Hle. congruence.
  - destruct (Qle_bool a b) eqn:E; [|reflexivity].
    apply Qle_bool_iff in E. exfalso. apply (Qlt_not_le _ _ Hf E).
Qed.

Lemma Qltb_true (a b : Q) : Qltb a b = true <-> (a < b)%Q.
Proof.
  unfold Qltb. rewrite negb_true_iff. apply (Qleb_false b a).
Qed.

Lemma Qltb_false (a b : Q) : Qltb a b = false <-> (b <= a)%Q.
Proof.
  unfold Qltb. rewrite negb_false_iff. apply (Qleb_true b a).
Qed.

Lemma list_in_true (x : string) (xs : list string) : list_in x xs = true <-> In x xs.
Proof.
  unfold list_in. rewrite existsb_exists. split.
  - intros [y [Hy He]]. apply String.eqb_eq in He. now subst.
  - intros Hx. exists x. split; [assumption | apply String.eqb_refl].
Qed.

(** ** Relationship weights *)

Lemma base_weight_lookup (ty : Spec.rel_type) :
  RelationshipExtractor.dict_get (Spec.type_name ty)
    RelationshipExtractor.RELATIONSHIP_WEIGHTS (1 # 2) = Spec.base_weight ty.
Proof. destruct ty; reflexivity. Qed.

Lemma py_clamp_spec (w : Q) : (py_max 0 (py_min 1 w) == Spec.clamp w 0 1)%Q.
Proof.
  unfold py_max, py_min, Spec.clamp.
  destruct (Qltb w 1) eqn:E1.
  - apply Qltb_true in E1.
    destruct (Qlt_le_dec w 0) as [Hlt | Hge].
    + assert (Qltb 0 w = false) as -> by (apply Qltb_false; now apply Qlt_le_weak).
      reflexivity.
    + destruct (Qlt_le_dec 1 w) as [Hgt | Hle].
      * exfalso. apply (Qlt_irrefl w). now apply Qlt_trans with 1%Q.
      * destruct (Qltb 0 w) eqn:E0; [reflexivity|].
        apply Qltb_false in E0. now apply Qle_antisym.
  - apply Qltb_false in E1.
    assert (Qltb 0 1 = true) as -> by reflexivity.
    destruct (Qlt_le_dec w 0) as [Hlt | Hge].
    + exfalso. apply (Qlt_irrefl w).
      apply Qlt_le_trans with 0%Q; [assumption|].
      apply Qle_trans with 1%Q; [discriminate | assumption].
    + destruct (Qlt_le_dec 1 w) as [Hgt | Hle]; [reflexivity|].
      now apply Qle_antisym.
Qed.

Lemma clamp_bounds (w : Q) : (0 <= Spec.clamp w 0 1 <= 1)%Q.
Proof.
  unfold Spec.clamp.
  destruct (Qlt_le_dec w 0); [split; discriminate|].
  destruct (Qlt_le_dec 1 w); [split; discriminate|].
  now split.
Qed.

(** C8: for each of the five relationship types, every similarity score and
    every pair of quality scores, [calculate_relationship_weight] returns
    the clamp to [0,1] of base weight x similarity x mean quality, with
    base weights 1.0, 0.9, 0.8, 0.7 and 0.6; the result lies in [0,1]. *)
Theorem calculate_relationship_weight_spec (ty : Spec.rel_type)
    (similarity source_quality target_quality : Q) :
  let w := RelationshipExtractor.calculate_relationship_weight (Spec.type_name ty)
             similarity
             (Some (RelationshipExtractor.mk_quality (Some source_quality)
                                                     (Some target_quality))) in
  (w == Spec.clamp (Spec.base_weight ty * similarity
                    * ((source_quality + target_quality) / 2)) 0 1)%Q
  /\ (0 <= w <= 1)%Q.
Proof.
  cbv zeta. unfold RelationshipExtractor.calculate_relationship_weight.
  rewrite base_weight_lookup. cbn [RelationshipExtractor.quality_truthy
    RelationshipExtractor.source_quality RelationshipExtractor.target_quality default].
  split.
  - apply py_clamp_spec.
  - rewrite py_clamp_spec. apply clamp_bounds.
Qed.

(** ** The per-node relationship limit *)

Section FanOut.
Implicit Types (rels : list Relationship.t) (counts : gmap string nat).

Lemma fan_out_cons n r rels :
  Spec.fan_out n (r :: rels)
  = ((if Spec.touches n r then 1 else 0) + Spec.fan_out n rels)%nat.
Proof. unfold Spec.fan_out. simpl. now destruct (Spec.touches n r). Qed.

(** Keeping [r] raises by one the count of each node it touches. *)
Lemma count_after_keep counts (r : Relationship.t) n :
  Spec.count_of
    (<[Relationship.target_id r := S (Spec.count_of counts (Relationship.target_id r))]>
     (<[Relationship.source_id r := S (Spec.count_of counts (Relationship.source_id r))]>
      counts)) n
  = ((if Spec.touches n r then 1 else 0) + Spec.count_of counts n)%nat.
Proof.
  unfold Spec.count_of, Spec.touches.
  destruct (decide (Relationship.target_id r = n)) as [Ht | Ht].
  - rewrite Ht, lookup_insert_eq. simpl.
    rewrite String.eqb_refl, orb_true_r. reflexivity.
  - rewrite lookup_insert_ne by assumption.
    assert (String.eqb n (Relationship.target_id r) = false) as ->
      by (apply String.eqb_neq; congruence).
    rewrite orb_false_r.
    destruct (decide (Relationship.source_id r = n)) as [Hs | Hs].
    + rewrite Hs, lookup_insert_eq, String.eqb_refl. reflexivity.
    + rewrite lookup_insert_ne by assumption.
      assert (String.eqb n (Relationship.source_id r) = false) as ->
        by (apply String.eqb_neq; congruence).
      reflexivity.
Qed.

(** Invariant of the loop: what is already counted for a node plus what
    the rest of the loop keeps for it stays within the limit. *)
Lemma enforce_limit_bound rels : forall counts,
  (forall n, Spec.count_of counts n <= RelationshipExtractor.MAX_RELATIONSHIPS_PER_NODE)%nat ->
  forall n,
    (Spec.count_of counts n + Spec.fan_out n (RelationshipExtractor.enforce_limit rels counts)
     <= RelationshipExtractor.MAX_RELATIONSHIPS_PER_NODE)%nat.
Proof.
  induction rels as [|r rels IH]; intros counts Hc n.
  - simpl. unfold Spec.fan_out. simpl. rewrite Nat.add_0_r. apply Hc.
  - cbn [RelationshipExtractor.enforce_limit]. fold (Spec.count_of counts (Relationship.source_id r)).
    fold (Spec.count_of counts (Relationship.target_id r)).
    destruct (Nat.ltb (Spec.count_of counts (Relationship.source_id r)) _ &&
              Nat.ltb (Spec.count_of counts (Relationship.target_id r)) _) eqn:E.
    + apply andb_true_iff in E as [Es Et].
      apply Nat.ltb_lt in Es. apply Nat.ltb_lt in Et.
      rewrite fan_out_cons.
      match goal with
      | |- context [RelationshipExtractor.enforce_limit rels ?c] =>
          specialize (IH c)
      end.
      assert (Hinv : forall m,
        (Spec.count_of
           (<[Relationship.target_id r := S (Spec.count_of counts (Relationship.target_id r))]>
            (<[Relationship.source_id r := S (Spec.count_of counts (Relationship.source_id r))]>
             counts)) m
         <= RelationshipExtractor.MAX_RELATIONSHIPS_PER_NODE)%nat).
      { intros m. rewrite count_after_keep. unfold Spec.touches.
        destruct (String.eqb m (Relationship.source_id r)) eqn:E1.
        - apply String.eqb_eq in E1. subst m. simpl. lia.
        - destruct (String.eqb m (Relationship.target_id r)) eqn:E2.
          + apply String.eqb_eq in E2. subst m. simpl. lia.
          + simpl. apply Hc. }
      specialize (IH Hinv n). rewrite count_after_keep in IH. lia.
    + apply IH. assumption.
Qed.

Lemma filter_relationships_bound rels n :
  (Spec.fan_out n (Spec.output (RelationshipExtractor.filter_relationships rels))
   <= RelationshipExtractor.MAX_RELATIONSHIPS_PER_NODE)%nat.
Proof.
  unfold RelationshipExtractor.filter_relationships.
  destruct rels as [|r rels]; [unfold Spec.fan_out; simpl; lia|].
  destruct (RelationshipExtractor.apply_threshold _) as [filtered|e];
    [|unfold Spec.fan_out; simpl; lia].
  cbn [bind Spec.output].
  pose proof (enforce_limit_bound filtered ∅) as Hb.
  specialize (Hb (fun m => ltac:(unfold Spec.count_of; rewrite lookup_empty; simpl; lia)) n).
  unfold Spec.count_of in Hb at 1. rewrite lookup_empty in Hb. simpl in Hb. exact Hb.
Qed.
End FanOut.

Section ExtractOutput.
Context `{StringLib}.

(** What [extract_relationships] returns is an output of
    [filter_relationships]. *)
Lemma extract_returns_filtered now self nodes batch_size :
  exists rels,
    Spec.returned (RelationshipExtractor.extract_relationships now self nodes batch_size)
    = Spec.output (RelationshipExtractor.filter_relationships rels).
Proof.
  unfold RelationshipExtractor.extract_relationships, Spec.returned.
  destruct nodes as [|nd nodes]; [exists []; reflexivity|].
  destruct (RelationshipExtractor.batches_of _ _) as [batches|e]; [|exists []; reflexivity].
  destruct (RelationshipExtractor.process_batches now self batches []) as [[rels|e] self'].
  - exists rels. reflexivity.
  - exists []. reflexivity.
Qed.

(** C7: in the output of [filter_relationships], and so in what
    [extract_relationships] returns, no node id is the source or target
    of more than 20 relationships. *)
Theorem fan_out_cap (rels : list Relationship.t) (now : Z)
    (self : RelationshipExtractor.t) (nodes : list RelationshipExtractor.node)
    (batch_size : option Z) (n : string) :
  (Spec.fan_out n (Spec.output (RelationshipExtractor.filter_relationships rels))
   <= 20)%nat
  /\ (Spec.fan_out n
        (Spec.returned
           (RelationshipExtractor.extract_relationships now self nodes batch_size))
      <= 20)%nat.
Proof.
  split.
  - apply filter_relationships_bound.
  - destruct (extract_returns_filtered now self nodes batch_size) as [rs ->].
    apply filter_relationships_bound.
Qed.
End ExtractOutput.

(** ** Extraction scenarios *)

Section Extraction.
Context `{StringLib}.

Lemma weight_in_range ty similarity quality :
  (0 <= RelationshipExtractor.calculate_relationship_weight ty similarity quality <= 1)%Q.
Proof.
  unfold RelationshipExtractor.calculate_relationship_weight.
  rewrite py_clamp_spec. apply clamp_bounds.
Qed.

(** A relationship of a known type with a weight in range is constructed
    with the fields it was given. *)
Lemma new_ok now uuid ty src tgt w md :
  list_in ty Relationship.RELATIONSHIP_TYPES = true ->
  (0 <= w <= 1)%Q ->
  exists md',
    Relationship.new now uuid ty src tgt w md
    = Ok (Relationship.mk ty src tgt w md' uuid now now 1)
    /\ forall k v, md !! k = Some (VNum v) -> md' !! k = Some (VNum v).
Proof.
  intros Hty [Hlo Hhi].
  unfold Relationship.new, Relationship.__post_init__.
  cbn [Relationship.type Relationship.weight Relationship.metadata
       Relationship.source_id Relationship.target_id Relationship.id
       Relationship.created_at Relationship.updated_at Relationship.version].
  rewrite Hty.
  assert (Qleb 0 w = true) as -> by now apply Qleb_true.
  assert (Qleb w 1 = true) as -> by now apply Qleb_true.
  cbn [negb andb]. eexists. split; [reflexivity|].
  intros k v Hk. apply lookup_union_Some_l.
  unfold Relationship._sanitize_metadata. rewrite lookup_fmap, Hk. reflexivity.
Qed.

End Extraction.

(** C9: for the two nodes A (level 1) and B (level 2), in this order, with
    similarity 0.85, [determine_relationship_type] answers IS_PREREQUISITE
    for the pair (A, B), but [extract_relationships] returns nothing: the
    relationship is built without [correlation_id], whose default
    [logger.get_correlation_id()] raises [AttributeError], and nothing is
    cached.  For the pair taken in the other order the answer would be
    IS_RELATED. *)
Theorem prerequisite_edge_not_returned :
  let A := Spec.levelled_node "A" 1 in
  let B := Spec.levelled_node "B" 2 in
  let self := Spec.constant_similarity (85 # 100) in
  let run :=
    @RelationshipExtractor.extract_relationships Spec.plain_strings 0 self [A; B] None in
  run.1 = Raise (AttributeError "'Logger' object has no attribute 'get_correlation_id'")
  /\ RelationshipExtractor._relationship_cache run.2 = ∅
  /\ RelationshipExtractor.determine_relationship_type A B (85 # 100)
     = Some "IS_PREREQUISITE"
  /\ RelationshipExtractor.determine_relationship_type B A (85 # 100)
     = Some "IS_RELATED".
Proof.
  cbv zeta. repeat split; vm_compute; reflexivity.
Qed.

(** C1: on three nodes that carry no level, scope, type or references, with
    pairwise similarity 0.95, [extract_relationships] returns nothing: the
    first relationship is built without [correlation_id] and
    [logger.get_correlation_id()] raises [AttributeError].  The type it
    was about to give every pair is CONTAINS, with weight
    0.9 x 0.95 x mean quality, not IS_RELATED: the missing scopes default
    to the empty string, which is a substring of itself. *)
Theorem undistinguished_nodes_contains :
  let A := Spec.bare_node "A" in
  let B := Spec.bare_node "B" in
  let C := Spec.bare_node "C" in
  let run :=
    @RelationshipExtractor.extract_relationships Spec.plain_strings 0
      (Spec.constant_similarity (95 # 100)) [A; B; C] None in
  run.1 = Raise (AttributeError "'Logger' object has no attribute 'get_correlation_id'")
  /\ Forall (fun pair : RelationshipExtractor.node * RelationshipExtractor.node =>
               RelationshipExtractor.determine_relationship_type pair.1 pair.2 (95 # 100)
               = Some "CONTAINS")
            (RelationshipExtractor.node_pairs [A; B; C])
  /\ (RelationshipExtractor.calculate_relationship_weight "CONTAINS" (95 # 100)
        (Some (RelationshipExtractor.mk_quality (Some (1 # 2)) (Some (1 # 2))))
      == (9 # 10) * (95 # 100) * (((1 # 2) + (1 # 2)) / 2))%Q
  /\ ~ (RelationshipExtractor.calculate_relationship_weight "CONTAINS" (95 # 100)
         (Some (RelationshipExtractor.mk_quality (Some (1 # 2)) (Some (1 # 2))))
       == (7 # 10) * (95 # 100) * (((1 # 2) + (1 # 2)) / 2))%Q.
Proof.
  cbv zeta. split; [vm_compute; reflexivity|]. split; [|split].
  - vm_compute. repeat constructor.
  - vm_compute. reflexivity.
  - vm_compute. discriminate.
Qed.

(** ** Construction of relationships *)

(** C4: [Relationship.__post_init__] does not compare the endpoints: for
    every id [s] a relationship from [s] to [s] with a valid type and weight
    is constructed, whereas the API schema's [validate_source_target]
    refuses the same pair. *)
Theorem self_loop_constructed `{StringLib} (now : Z) (uuid : nat) (s : string)
    (md : gmap string value) :
  (exists r,
     Relationship.new now uuid "IS_RELATED" s s (1 # 2) md = Ok r
     /\ Relationship.source_id r = s
     /\ Relationship.target_id r = s)
  /\ Schemas.validate_source_target (Some s) (Some s)
     = Raise (ValueError "Source and target nodes must be different").
Proof.
  split.
  - destruct (new_ok now uuid "IS_RELATED" s s (1 # 2) md eq_refl) as [md' [Hnew _]].
    { split; discriminate. }
    eexists. split; [exact Hnew|]. split; reflexivity.
  - unfold Schemas.validate_source_target. rewrite String.eqb_refl. reflexivity.
Qed.

(** ** Graphs *)

Section GraphConstruction.
Context `{StringLib}.

Lemma graph_new_raises now uuid name ty md nodes rels :
  Graph.new now uuid name ty md nodes rels
  = Raise (if list_in ty Graph.GRAPH_TYPES
           then AttributeError "'Logger' object has no attribute 'get_correlation_id'"
           else GraphValidationError "Invalid graph type").
Proof.
  unfold Graph.new, Graph.__post_init__. cbn [Graph.type].
  destruct (list_in ty Graph.GRAPH_TYPES); reflexivity.
Qed.

Lemma add_relationships_batch_raises now g batch :
  Graph.add_relationships_batch now g batch
  = Raise (GraphOperationError "Failed to add relationships batch").
Proof.
  unfold Graph.add_relationships_batch.
  destruct (Nat.ltb _ _); [reflexivity|].
  destruct (Graph.valid_relationships batch); reflexivity.
Qed.

Lemma add_node_raises now g node :
  Graph.add_node now g node
  = Raise (AttributeError "'dict' object has no attribute 'id'").
Proof. reflexivity. Qed.

Lemma build_graph_raises start_time end_time uuid self nodes name metadata :
  GraphBuilder.build_graph start_time end_time uuid self nodes name metadata
  = Raise (if GraphBuilder.validate_nodes nodes
           then AttributeError "'Logger' object has no attribute 'get_correlation_id'"
           else GraphValidationError "Node validation failed").
Proof.
  unfold GraphBuilder.build_graph.
  destruct (GraphBuilder.validate_nodes nodes); [|reflexivity].
  cbn [negb]. rewrite graph_new_raises. reflexivity.
Qed.

(** C3: no graph of type PREREQUISITE_GRAPH is ever constructed, with a
    cyclic relationship set or any other: [Graph(...)] raises for every
    name, metadata, node list and relationship list, because
    [__post_init__] ends on [logger.get_correlation_id()].  No relationship
    is dropped either: [add_relationships_batch] raises for every graph and
    batch and leaves the graph as it was. *)
Theorem prerequisite_graph_never_constructed (now : Z) (uuid name : string)
    (md : gmap string value) (nodes : list RelationshipExtractor.node)
    (rels : list Relationship.t) :
  Graph.new now uuid name "PREREQUISITE_GRAPH" md nodes rels
  = Raise (AttributeError "'Logger' object has no attribute 'get_correlation_id'")
  /\ (forall ty, exists e, Graph.new now uuid name ty md nodes rels = Raise e)
  /\ (forall g batch,
        Graph.add_relationships_batch now g batch
        = Raise (GraphOperationError "Failed to add relationships batch")).
Proof.
  split; [apply graph_new_raises|]. split.
  - intros ty. rewrite graph_new_raises. eauto.
  - apply add_relationships_batch_raises.
Qed.

End GraphConstruction.

(** ** The directed graph of a batch *)

Section DiGraphFacts.
Implicit Types (G : nx.DiGraph) (u v n : string) (d : nx.edge_data).

Lemma same_endpoints_true u v (e : string * string * nx.edge_data) :
  nx.same_endpoints u v e = true <-> e.1.1 = u /\ e.1.2 = v.
Proof.
  unfold nx.same_endpoints. rewrite andb_true_iff, !String.eqb_eq.
  split; intros [-> ->]; now split.
Qed.

Lemma find_set_edge_same u v w i es :
  exists d', List.find (nx.same_endpoints u v) (nx.set_edge u v (nx.mk_data w (Some i)) es)
             = Some (u, v, d')
             /\ nx.weight d' = w /\ nx.id d' = Some i.
Proof.
  induction es as [|e es IH]; simpl.
  - unfold nx.same_endpoints. simpl. rewrite !String.eqb_refl. simpl. eauto.
  - destruct (nx.same_endpoints u v e) eqn:E.
    + simpl. unfold nx.same_endpoints at 1. simpl. rewrite !String.eqb_refl. simpl.
      eexists. split; [reflexivity|]. split; reflexivity.
    + simpl. rewrite E. exact IH.
Qed.

Lemma find_set_edge_other u v u' v' d es :
  (u', v') <> (u, v) ->
  List.find (nx.same_endpoints u' v') (nx.set_edge u v d es)
  = List.find (nx.same_endpoints u' v') es.
Proof.
  intros Hne. induction es as [|e es IH]; simpl.
  - destruct (nx.same_endpoints u' v' (u, v, d)) eqn:E; [|reflexivity].
    apply same_endpoints_true in E. simpl in E. destruct E as [-> ->]. congruence.
  - assert (Hnew : forall d', nx.same_endpoints u' v' (u, v, d') = false).
    { intros d'. destruct (nx.same_endpoints u' v' (u, v, d')) eqn:E3; [|reflexivity].
      apply same_endpoints_true in E3. simpl in E3. destruct E3. congruence. }
    destruct (nx.same_endpoints u v e) eqn:E.
    + apply same_endpoints_true in E. destruct E as [E1 E2].
      assert (nx.same_endpoints u' v' e = false) as He.
      { destruct (nx.same_endpoints u' v' e) eqn:E'; [|reflexivity].
        apply same_endpoints_true in E'. destruct E'. congruence. }
      cbn [List.find]. rewrite Hnew, He. reflexivity.
    + cbn [List.find]. destruct (nx.same_endpoints u' v' e); [reflexivity | exact IH].
Qed.

Lemma nodes_add_node G n m :
  In m (nx.nodes (nx.add_node G n)) <-> m = n \/ In m (nx.nodes G).
Proof.
  unfold nx.add_node. destruct (list_in n (nx.nodes G)) eqn:E.
  - apply list_in_true in E. split; [tauto|]. intros [-> | Hm]; assumption.
  - simpl. rewrite in_app_iff. simpl. split; intros Hm; intuition congruence.
Qed.

Lemma edges_add_node G n : nx.edges (nx.add_node G n) = nx.edges G.
Proof. unfold nx.add_node. now destruct (list_in n (nx.nodes G)). Qed.

Lemma nodes_add_edge G u v d m :
  In m (nx.nodes (nx.add_edge G u v d)) <-> m = u \/ m = v \/ In m (nx.nodes G).
Proof.
  unfold nx.add_edge. cbn [nx.nodes]. rewrite !nodes_add_node. tauto.
Qed.

Lemma get_edge_add_edge_same G u v w i :
  exists d', nx.get_edge (nx.add_edge G u v (nx.mk_data w (Some i))) u v = Some d'
             /\ nx.weight d' = w /\ nx.id d' = Some i.
Proof.
  unfold nx.get_edge, nx.add_edge. cbn [nx.edges].
  destruct (find_set_edge_same u v w i (nx.edges (nx.add_node (nx.add_node G u) v)))
    as [d' [-> Hd]].
  exists d'. split; [reflexivity | exact Hd].
Qed.

Lemma get_edge_add_edge_other G u v d u' v' :
  (u', v') <> (u, v) ->
  nx.get_edge (nx.add_edge G u v d) u' v' = nx.get_edge G u' v'.
Proof.
  intros Hne. unfold nx.get_edge, nx.add_edge. cbn [nx.edges].
  rewrite find_set_edge_other by assumption. now rewrite !edges_add_node.
Qed.

Lemma get_edge_successor G u v d :
  nx.get_edge G u v = Some d -> In v (nx.successors G u).
Proof.
  unfold nx.get_edge, nx.successors.
  destruct (List.find _ _) as [e|] eqn:E; [|discriminate]. intros _.
  apply find_some in E. destruct E as [Hin He].
  apply same_endpoints_true in He. destruct He as [He1 He2].
  apply in_map_iff. exists e. split; [assumption|].
  apply filter_In. split; [assumption|]. rewrite He1. apply String.eqb_refl.
Qed.

Lemma edge_view_intro G u v :
  In u (nx.nodes G) -> In v (nx.successors G u) -> In (u, v) (nx.edge_view G).
Proof.
  intros Hu Hv. unfold nx.edge_view. apply in_flat_map.
  exists u. split; [assumption|]. apply in_map. assumption.
Qed.
End DiGraphFacts.

Section BatchGraph.
Implicit Types (batch : list Relationship.t) (r : Relationship.t).

Lemma digraph_with_ids_snoc batch r :
  GraphOptimizer.digraph_with_ids (batch ++ [r])
  = nx.add_edge (GraphOptimizer.digraph_with_ids batch)
      (Relationship.source_id r) (Relationship.target_id r)
      (nx.mk_data (Relationship.weight r) (Some (Relationship.id r))).
Proof. unfold GraphOptimizer.digraph_with_ids. now rewrite fold_left_app. Qed.

(** Without parallel relationships in the batch, every relationship is
    the edge between its endpoints, with its own weight and id. *)
Lemma digraph_with_ids_edge batch :
  List.NoDup (map Spec.endpoints batch) ->
  forall r, In r batch ->
    exists d,
      nx.get_edge (GraphOptimizer.digraph_with_ids batch)
        (Relationship.source_id r) (Relationship.target_id r) = Some d
      /\ nx.weight d = Relationship.weight r
      /\ nx.id d = Some (Relationship.id r).
Proof.
  induction batch as [|x batch IH] using rev_ind; intros Hnd r Hr; [destruct Hr|].
  rewrite digraph_with_ids_snoc.
  rewrite map_app in Hnd. simpl in Hnd.
  apply in_app_or in Hr. destruct Hr as [Hr | [<- | []]].
  - assert (Spec.endpoints r <> Spec.endpoints x) as Hne.
    { intros Heq. apply NoDup_remove_2 in Hnd. apply Hnd.
      rewrite app_nil_r, <- Heq. now apply in_map. }
    rewrite get_edge_add_edge_other by exact Hne.
    apply IH; [|assumption]. apply NoDup_remove_1 in Hnd. now rewrite app_nil_r in Hnd.
  - apply get_edge_add_edge_same.
Qed.

Lemma digraph_with_ids_nodes batch r :
  In r batch ->
  In (Relationship.source_id r) (nx.nodes (GraphOptimizer.digraph_with_ids batch))
  /\ In (Relationship.target_id r) (nx.nodes (GraphOptimizer.digraph_with_ids batch)).
Proof.
  induction batch as [|x batch IH] using rev_ind; intros Hr; [destruct Hr|].
  rewrite digraph_with_ids_snoc, !nodes_add_edge.
  apply in_app_or in Hr. destruct Hr as [Hr | [<- | []]]; [|tauto].
  destruct (IH Hr). tauto.
Qed.
End BatchGraph.

(** ** Redundant relationships *)

Section Redundancy.

Lemma py_max_ge_l (a b : Q) : (a <= py_max a b)%Q.
Proof.
  unfold py_max. destruct (Qltb a b) eqn:E.
  - apply Qltb_true in E. now apply Qlt_le_weak.
  - apply Qle_refl.
Qed.

Lemma py_max_ge_r (a b : Q) : (b <= py_max a b)%Q.
Proof.
  unfold py_max. destruct (Qltb a b) eqn:E.
  - apply Qle_refl.
  - now apply Qltb_false in E.
Qed.

Lemma fold_py_max_ge_acc (xs : list Q) : forall acc, (acc <= fold_left py_max xs acc)%Q.
Proof.
  induction xs as [|x xs IH]; intros acc; simpl; [apply Qle_refl|].
  eapply Qle_trans; [apply py_max_ge_l | apply IH].
Qed.

Lemma fold_py_max_ge (xs : list Q) : forall acc x,
  In x xs -> (x <= fold_left py_max xs acc)%Q.
Proof.
  induction xs as [|y xs IH]; intros acc x Hx; [destruct Hx|].
  simpl. destruct Hx as [-> | Hx].
  - eapply Qle_trans; [apply py_max_ge_r | apply fold_py_max_ge_acc].
  - now apply IH.
Qed.

Lemma list_max_ge (xs : list Q) (x : Q) :
  In x xs -> (x <= GraphOptimizer.list_max xs)%Q.
Proof.
  destruct xs as [|y xs]; intros Hx; [destruct Hx|].
  unfold GraphOptimizer.list_max. destruct Hx as [-> | Hx].
  - apply fold_py_max_ge_acc.
  - now apply fold_py_max_ge.
Qed.

Lemma two_elements {A : Type} (a b : A) (l : list A) :
  In a l -> In b l -> a <> b -> (1 < length l)%nat.
Proof.
  intros Ha Hb Hne. destruct l as [|x [|y l]]; simpl in *; [tauto| |lia].
  intuition congruence.
Qed.

Lemma three_elements {A : Type} (a b c : A) (l : list A) :
  In a l -> In b l -> In c l -> a <> b -> a <> c -> b <> c -> (3 <= length l)%nat.
Proof.
  intros Ha Hb Hc Hab Hac Hbc.
  destruct l as [|x [|y [|z l]]]; simpl in *; [tauto| | |lia];
    intuition congruence.
Qed.

Lemma list_in_false (x : string) (xs : list string) :
  ~ In x xs -> list_in x xs = false.
Proof.
  intros Hn. destruct (list_in x xs) eqn:E; [|reflexivity].
  apply list_in_true in E. contradiction.
Qed.

(** The direct path and the path through an intermediate node are among
    the simple paths enumerated. *)
Lemma simple_paths_triangle (G : nx.DiGraph) (A B C : string) :
  A <> B -> A <> C -> B <> C ->
  In A (nx.nodes G) -> In B (nx.nodes G) -> In C (nx.nodes G) ->
  In C (nx.successors G A) -> In B (nx.successors G A) -> In C (nx.successors G B) ->
  In [A; C] (nx.all_simple_paths G A C) /\ In [A; B; C] (nx.all_simple_paths G A C).
Proof.
  intros Hab Hac Hbc HA HB HC HsAC HsAB HsBC.
  unfold nx.all_simple_paths.
  assert (String.eqb A C = false) as -> by now apply String.eqb_neq.
  pose proof (three_elements A B C (nx.nodes G) HA HB HC Hab Hac Hbc) as Hlen.
  unfold nx.number_of_nodes.
  destruct (length (nx.nodes G)) as [|[|[|n]]]; try lia.
  change (S (S (S n)) - 1)%nat with (S (S n)).
  cbn [nx.paths_from]. split; apply in_flat_map.
  - exists C. split; [assumption|].
    rewrite list_in_false by (simpl; intuition congruence).
    rewrite String.eqb_refl. now left.
  - exists B. split; [assumption|].
    rewrite list_in_false by (simpl; intuition congruence).
    assert (String.eqb B C = false) as -> by now apply String.eqb_neq.
    apply in_flat_map. exists C. split; [assumption|].
    rewrite list_in_false by (simpl; intuition congruence).
    rewrite String.eqb_refl. now left.
Qed.

Lemma delete_relationships_gone (ids : list nat) (store : list Relationship.t)
    (i : nat) :
  In i ids ->
  forall r, In r (GraphOptimizer.delete_relationships ids store) ->
            Relationship.id r <> i.
Proof.
  intros Hi r Hr Heq. unfold GraphOptimizer.delete_relationships in Hr.
  apply filter_In in Hr. destruct Hr as [_ Hr].
  apply negb_true_iff in Hr.
  assert (existsb (Nat.eqb (Relationship.id r)) ids = true) as Hex; [|congruence].
  apply existsb_exists. exists i. split; [assumption|]. now apply Nat.eqb_eq.
Qed.
End Redundancy.
(** C10: when a batch without parallel relationships holds a direct
    relationship A -> C together with relationships A -> B and B -> C whose
    weights multiply to more than the direct weight (0.6 against 0.3 in the
    scenario), [remove_redundant_relationships] marks the direct
    relationship redundant and deletes it from the store. *)
Theorem weaker_direct_edge_removed (self : GraphOptimizer.t)
    (batch : list Relationship.t) (rAC rAB rBC : Relationship.t) (A B C : string) :
  In rAC batch -> In rAB batch -> In rBC batch ->
  Spec.endpoints rAC = (A, C) ->
  Spec.endpoints rAB = (A, B) ->
  Spec.endpoints rBC = (B, C) ->
  A <> B -> A <> C -> B <> C ->
  List.NoDup (map Spec.endpoints batch) ->
  (Relationship.weight rAC < Relationship.weight rAB * Relationship.weight rBC)%Q ->
  In (Relationship.id rAC)
     (GraphOptimizer.redundant_edges (GraphOptimizer.digraph_with_ids batch))
  /\ (GraphOptimizer.remove_redundant_relationships self batch).1 = Ok true
  /\ forall r,
       In r (GraphOptimizer._db_conn
               (GraphOptimizer.remove_redundant_relationships self batch).2) ->
       Relationship.id r <> Relationship.id rAC.
Proof.
  intros HinAC HinAB HinBC HeAC HeAB HeBC Hab Hac Hbc Hnd Hw.
  unfold Spec.endpoints in HeAC, HeAB, HeBC.
  injection HeAC as HsAC HtAC. injection HeAB as HsAB HtAB. injection HeBC as HsBC HtBC.
  set (G := GraphOptimizer.digraph_with_ids batch).
  destruct (digraph_with_ids_edge batch Hnd rAC HinAC) as [dAC [HgAC [HwAC HiAC]]].
  destruct (digraph_with_ids_edge batch Hnd rAB HinAB) as [dAB [HgAB [HwAB _]]].
  destruct (digraph_with_ids_edge batch Hnd rBC HinBC) as [dBC [HgBC [HwBC _]]].
  rewrite HsAC, HtAC in HgAC. rewrite HsAB, HtAB in HgAB. rewrite HsBC, HtBC in HgBC.
  fold G in HgAC, HgAB, HgBC.
  destruct (digraph_with_ids_nodes batch rAC HinAC) as [HnA HnC].
  destruct (digraph_with_ids_nodes batch rAB HinAB) as [_ HnB].
  rewrite HsAC in HnA. rewrite HtAC in HnC. rewrite HtAB in HnB. fold G in HnA, HnB, HnC.
  pose proof (get_edge_successor G A C dAC HgAC) as HsuccAC.
  pose proof (get_edge_successor G A B dAB HgAB) as HsuccAB.
  pose proof (get_edge_successor G B C dBC HgBC) as HsuccBC.
  destruct (simple_paths_triangle G A B C Hab Hac Hbc HnA HnB HnC HsuccAC HsuccAB HsuccBC)
    as [Hdirect Hvia].
  assert (Hred : In (Relationship.id rAC) (GraphOptimizer.redundant_edges G)).
  { unfold GraphOptimizer.redundant_edges. apply in_flat_map.
    exists (A, C). split; [now apply edge_view_intro|].
    assert (Nat.ltb 1 (length (nx.all_simple_paths G A C)) = true) as ->.
    { apply Nat.ltb_lt. apply (two_elements [A; C] [A; B; C]); try assumption.
      intros Heq. injection Heq as Heq. now apply Hbc. }
    rewrite HgAC.
    assert (Qltb (nx.weight dAC)
              (GraphOptimizer.list_max
                 (map (GraphOptimizer.path_strength G) (nx.all_simple_paths G A C)))
            = true) as ->.
    { apply Qltb_true. rewrite HwAC.
      eapply Qlt_le_trans; [exact Hw|].
      eapply Qle_trans; [|apply list_max_ge; apply in_map; exact Hvia].
      cbn [GraphOptimizer.path_strength]. unfold GraphOptimizer.edge_weight.
      rewrite HgAB, HgBC, HwAB, HwBC. rewrite Qmult_1_r. apply Qle_refl. }
    rewrite HiAC. now left. }
  split; [exact Hred|].
  unfold GraphOptimizer.remove_redundant_relationships. fold G.
  destruct (GraphOptimizer.redundant_edges G) as [|i ids] eqn:E; [destruct Hred|].
  split; [reflexivity|].
  intros r Hr. cbn [snd GraphOptimizer.with_store GraphOptimizer._db_conn] in Hr.
  now apply (delete_relationships_gone (i :: ids) (GraphOptimizer._db_conn self)).
Qed.

Lemma weaker_direct_edge_removed_witness :
  let batch := [Spec.edge 1 "A" "C" (3 # 10); Spec.edge 2 "A" "B" (3 # 4);
                Spec.edge 3 "B" "C" (8 # 10)] in
  let self := GraphOptimizer.mk batch None ∅ [] in
  In 1%nat (GraphOptimizer.redundant_edges (GraphOptimizer.digraph_with_ids batch))
  /\ (GraphOptimizer.remove_redundant_relationships self batch).1 = Ok true
  /\ forall r,
       In r (GraphOptimizer._db_conn
               (GraphOptimizer.remove_redundant_relationships self batch).2) ->
       Relationship.id r <> 1%nat.
Proof.
  cbv zeta.
  apply (weaker_direct_edge_removed
           (GraphOptimizer.mk
              [Spec.edge 1 "A" "C" (3 # 10); Spec.edge 2 "A" "B" (3 # 4);
               Spec.edge 3 "B" "C" (8 # 10)] None ∅ [])
           [Spec.edge 1 "A" "C" (3 # 10); Spec.edge 2 "A" "B" (3 # 4);
            Spec.edge 3 "B" "C" (8 # 10)]
           (Spec.edge 1 "A" "C" (3 # 10)) (Spec.edge 2 "A" "B" (3 # 4))
           (Spec.edge 3 "B" "C" (8 # 10)) "A" "B" "C");
    try reflexivity; try discriminate; simpl; try tauto.
  repeat constructor; simpl; intuition discriminate.
Defined.

(** ** Rebalancing *)

Section Rebalancing.
Variable an : GraphOptimizer.analytics.

Lemma uuid_unbound : GraphOptimizer.load_global "uuid" = Raise (NameError "uuid").
Proof. reflexivity. Qed.

(** One pair either leaves the store alone or stops on the unbound name. *)
Lemma connect_cases G node pred succ store next_uuid :
  GraphOptimizer.connect G node pred succ store next_uuid
  = if Spec.insertion_attempted G node pred succ
    then Raise (NameError "uuid") else Ok store.
Proof.
  unfold GraphOptimizer.connect, Spec.insertion_attempted.
  destruct (nx.has_edge G pred succ); [reflexivity|]. cbn [negb andb].
  destruct (Qltb _ _); [|reflexivity].
  rewrite uuid_unbound. reflexivity.
Qed.

Lemma connect_all_cases G pairs : forall store next_uuid,
  GraphOptimizer.connect_all G pairs store next_uuid
  = (if existsb (fun p : string * string * string =>
                   Spec.insertion_attempted G p.1.1 p.1.2 p.2) pairs
     then Raise (NameError "uuid") else Ok tt, store).
Proof.
  induction pairs as [|[[node pred] succ] pairs IH]; intros store next_uuid;
    [reflexivity|].
  cbn [GraphOptimizer.connect_all existsb fst snd].
  rewrite connect_cases.
  destruct (Spec.insertion_attempted G node pred succ); [reflexivity|].
  cbn [orb]. apply IH.
Qed.

Lemma rebalance_structure_raises self graph next_uuid :
  GraphOptimizer.rebalance_structure an self graph next_uuid
  = (Raise (AttributeError "'Logger' object has no attribute 'get_correlation_id'"),
     self).
Proof. reflexivity. Qed.

Lemma calculate_metrics_cases now self graph :
  GraphOptimizer.calculate_metrics an now self graph
  = match GraphOptimizer._metrics_cache self !! GraphOptimizer.cache_key graph with
    | Some cached => (Ok cached, self)
    | None =>
        (Raise (AttributeError "'Logger' object has no attribute 'get_correlation_id'"),
         self)
    end.
Proof.
  unfold GraphOptimizer.calculate_metrics. destruct (_ !! _); reflexivity.
Qed.

Lemma optimize_raises start_time end_time next_uuid self graph :
  GraphOptimizer.optimize an start_time end_time next_uuid self graph
  = (Raise (AttributeError "'Logger' object has no attribute 'get_correlation_id'"),
     self).
Proof. reflexivity. Qed.

(** C6: the name [uuid] is not bound in graph_optimizer.py, so the
    edge-creation branch of [rebalance_structure] raises NameError whenever
    its two tests pass, and the loops around it stop there with the store
    as it was.  The pass as a whole never adds an edge: it raises at its
    first statement, [graph.analyze()], and its handler at
    [logger.get_correlation_id()]; and [optimize] fails on every input, an
    attempted insertion included. *)
Theorem rebalancing_edge_never_created (G : nx.DiGraph) (node pred succ : string)
    (pairs : list (string * string * string)) (store : list Relationship.t)
    (next_uuid : nat) :
  Spec.insertion_attempted G node pred succ = true ->
  In (node, pred, succ) pairs ->
  list_in "uuid" GraphOptimizer.module_globals = false
  /\ GraphOptimizer.connect G node pred succ store next_uuid = Raise (NameError "uuid")
  /\ GraphOptimizer.connect_all G pairs store next_uuid
     = (Raise (NameError "uuid"), store)
  /\ (forall self graph uuid',
        exists e, GraphOptimizer.rebalance_structure an self graph uuid'
                  = (Raise e, self))
  /\ (forall start_time end_time uuid' self graph,
        exists e, GraphOptimizer.optimize an start_time end_time uuid' self graph
                  = (Raise e, self)).
Proof.
  intros Hatt Hin. split; [reflexivity|]. split; [|split; [|split]].
  - rewrite connect_cases, Hatt. reflexivity.
  - rewrite connect_all_cases.
    match goal with |- (if ?b then _ else _, _) = _ => assert (b = true) as -> end;
      [|reflexivity].
    apply existsb_exists. exists (node, pred, succ). split; [exact Hin | exact Hatt].
  - intros self graph uuid'. rewrite rebalance_structure_raises. eauto.
  - intros start_time end_time uuid' self graph. rewrite optimize_raises. eauto.
Qed.

(** C5: [optimize] records no metrics at all, final or initial: on every
    optimizer and graph it raises at its first statement, whose log record
    is built with [logger.get_correlation_id()], and leaves the optimizer
    as it was.  [calculate_metrics] itself never recomputes anything: it
    answers from the cache, whatever the store holds, or raises on
    [graph.get_relationships()]. *)
Theorem optimize_records_no_metrics (start_time end_time : Z) (next_uuid : nat)
    (self : GraphOptimizer.t) (graph : Graph.t) :
  GraphOptimizer.optimize an start_time end_time next_uuid self graph
  = (Raise (AttributeError "'Logger' object has no attribute 'get_correlation_id'"),
     self)
  /\ (forall now,
        GraphOptimizer.calculate_metrics an now self graph
        = match GraphOptimizer._metrics_cache self !! GraphOptimizer.cache_key graph with
          | Some cached => (Ok cached, self)
          | None =>
              (Raise (AttributeError
                        "'Logger' object has no attribute 'get_correlation_id'"),
               self)
          end)
  /\ Graph.get_relationships graph
     = Raise (AttributeError "'Graph' object has no attribute 'get_relationships'").
Proof.
  split; [apply optimize_raises|]. split; [|reflexivity].
  intros now. apply calculate_metrics_cases.
Qed.
End Rebalancing.

Lemma rebalancing_edge_never_created_witness :
  let G := GraphBuilder.relationship_digraph Spec.four_cycle in
  GraphOptimizer.connect G "A" "D" "B" Spec.four_cycle 0 = Raise (NameError "uuid")
  /\ GraphOptimizer.connect_all G
       (GraphOptimizer.rebalance_candidates GraphOptimizer.networkx
          (Spec.optimizer_on Spec.four_cycle) G)
       Spec.four_cycle 0
     = (Raise (NameError "uuid"), Spec.four_cycle).
Proof.
  cbv zeta.
  destruct (rebalancing_edge_never_created GraphOptimizer.networkx
              (GraphBuilder.relationship_digraph Spec.four_cycle) "A" "D" "B"
              (GraphOptimizer.rebalance_candidates GraphOptimizer.networkx
                 (Spec.optimizer_on Spec.four_cycle)
                 (GraphBuilder.relationship_digraph Spec.four_cycle))
              Spec.four_cycle 0) as (_ & Hconnect & Hall & _).
  - vm_compute. reflexivity.
  - vm_compute. tauto.
  - split; [exact Hconnect | exact Hall].
Defined.

(** * Further properties of the extractor *)

(** Whatever the nodes and the score, the type determined is one of the
    five relationship types, and a score of at least 0.7 always gets one. *)
Theorem determine_relationship_type_closed (source target : RelationshipExtractor.node)
    (similarity : Q) :
  (forall ty,
     RelationshipExtractor.determine_relationship_type source target similarity = Some ty ->
     In ty Relationship.RELATIONSHIP_TYPES)
  /\ ((7 # 10 <= similarity)%Q ->
      RelationshipExtractor.determine_relationship_type source target similarity <> None)
  /\ (RelationshipExtractor.determine_relationship_type source target similarity = None ->
      (similarity < 7 # 10)%Q).
Proof.
  unfold RelationshipExtractor.determine_relationship_type.
  repeat split.
  - intros ty.
    repeat match goal with
           | |- (if ?b then _ else _) = _ -> _ => destruct b
           end;
      intros Heq; try discriminate; injection Heq as <-; simpl; tauto.
  - intros Hle.
    assert (Qleb RelationshipExtractor.SIMILARITY_THRESHOLD similarity = true) as ->
      by now apply Qleb_true.
    repeat match goal with
           | |- (if ?b then _ else _) <> _ => destruct b
           end; discriminate.
  - repeat match goal with
           | |- (if ?b then _ else _) = _ -> _ => destruct b eqn:?
           end; try discriminate.
    intros _. now apply Qleb_false.
Qed.

(** Every unordered pair of a batch is compared once: a batch of [n] nodes
    gives [n (n - 1) / 2] pairs, each made of an earlier and a later node. *)
Theorem node_pairs_count (batch : list RelationshipExtractor.node) :
  (2 * length (RelationshipExtractor.node_pairs batch)
   = length batch * (length batch - 1))%nat
  /\ forall source target,
       In (source, target) (RelationshipExtractor.node_pairs batch) ->
       exists before between after,
         batch = (before ++ source :: between ++ target :: after)%list.
Proof.
  split.
  - induction batch as [|x batch IH]; [reflexivity|].
    cbn [RelationshipExtractor.node_pairs length].
    rewrite length_app, length_map. nia.
  - induction batch as [|x batch IH]; intros source target Hin; [destruct Hin|].
    cbn [RelationshipExtractor.node_pairs] in Hin.
    apply in_app_or in Hin. destruct Hin as [Hin | Hin].
    + apply in_map_iff in Hin. destruct Hin as [y [Heq Hy]].
      injection Heq as <- <-.
      apply in_split in Hy. destruct Hy as [l1 [l2 ->]].
      exists [], l1, l2. reflexivity.
    + destruct (IH _ _ Hin) as [before [between [after ->]]].
      exists (x :: before), between, after. reflexivity.
Qed.

(** The batches of a positive size cover the list in order, none is empty
    and none is longer than the batch size. *)
Theorem chunks_partition {A : Type} (batch_size : nat) (l : list A) :
  (0 < batch_size)%nat ->
  concat (RelationshipExtractor.chunks (length l) batch_size l) = l
  /\ Forall (fun batch => (0 < length batch <= batch_size)%nat)
            (RelationshipExtractor.chunks (length l) batch_size l).
Proof.
  intros Hpos.
  assert (Hgen : forall fuel (l : list A), (length l <= fuel)%nat ->
    concat (RelationshipExtractor.chunks fuel batch_size l) = l
    /\ Forall (fun batch => (0 < length batch <= batch_size)%nat)
              (RelationshipExtractor.chunks fuel batch_size l)).
  { induction fuel as [|fuel IH]; intros l0 Hlen.
    - destruct l0; [split; [reflexivity | constructor] | simpl in Hlen; lia].
    - destruct l0 as [|x l0]; [split; [reflexivity | constructor]|].
      cbn [RelationshipExtractor.chunks].
      destruct (IH (drop batch_size (x :: l0))) as [IH1 IH2].
      { rewrite length_drop. simpl in *. lia. }
      split.
      + cbn [concat]. rewrite IH1. apply take_drop.
      + constructor; [|exact IH2].
        rewrite length_take. simpl. lia. }
  apply Hgen. lia.
Qed.

Lemma chunks_partition_witness :
  concat (RelationshipExtractor.chunks 3 2 ["a"; "b"; "c"]) = ["a"; "b"; "c"]
  /\ Forall (fun batch : list string => (0 < length batch <= 2)%nat)
            (RelationshipExtractor.chunks 3 2 ["a"; "b"; "c"]).
Proof.
  apply (chunks_partition 2 ["a"; "b"; "c"]). lia.
Defined.

(** A relationship put in the cache is found under its key for the next
    [CACHE_TTL] seconds and no longer afterwards; other keys are
    unaffected. *)
Theorem relationship_cache_round_trip (cached_at now : Z)
    (self : RelationshipExtractor.t) (key other : string * string)
    (relationship : Relationship.t) :
  let self' := RelationshipExtractor._cache_relationship cached_at self key relationship in
  ((now - cached_at < 3600)%Z ->
   RelationshipExtractor._get_cached_relationship now self' key = Some relationship)
  /\ ((3600 <= now - cached_at)%Z ->
      RelationshipExtractor._get_cached_relationship now self' key = None)
  /\ (other <> key ->
      RelationshipExtractor._get_cached_relationship now self' other
      = RelationshipExtractor._get_cached_relationship now self other).
Proof.
  cbv zeta.
  unfold RelationshipExtractor._get_cached_relationship,
    RelationshipExtractor._cache_relationship, RelationshipExtractor.CACHE_TTL.
  cbn [RelationshipExtractor._relationship_cache].
  repeat split.
  - intros Hlt. rewrite lookup_insert_eq.
    destruct (Z.ltb_spec (now - cached_at) 3600); [reflexivity | lia].
  - intros Hge. rewrite lookup_insert_eq.
    destruct (Z.ltb_spec (now - cached_at) 3600); [lia | reflexivity].
  - intros Hne. rewrite lookup_insert_ne by congruence. reflexivity.
Qed.

(** ** The filter *)

Section Filter.
Implicit Types (rels : list Relationship.t) (r : Relationship.t).

Lemma insert_by_weight_perm r rels :
  RelationshipExtractor.insert_by_weight r rels ≡ₚ r :: rels.
Proof.
  induction rels as [|x rels IH]; [reflexivity|].
  cbn [RelationshipExtractor.insert_by_weight].
  destruct (Qltb _ _); [|reflexivity].
  rewrite IH. apply perm_swap.
Qed.

Lemma sorted_by_weight_perm rels :
  RelationshipExtractor.sorted_by_weight_desc rels ≡ₚ rels.
Proof.
  unfold RelationshipExtractor.sorted_by_weight_desc.
  induction rels as [|x rels IH]; [reflexivity|].
  cbn [foldr]. rewrite insert_by_weight_perm. now rewrite IH.
Qed.

Lemma insert_by_weight_descending r rels :
  Extra.descending rels ->
  Extra.descending (RelationshipExtractor.insert_by_weight r rels).
Proof.
  induction rels as [|x rels IH]; intros Hd.
  - cbn. split; [constructor | exact I].
  - cbn [RelationshipExtractor.insert_by_weight].
    destruct Hd as [Hx Hd].
    destruct (Qltb (Relationship.weight r) (Relationship.weight x)) eqn:E.
    + apply Qltb_true in E. cbn [Extra.descending]. split; [|now apply IH].
      rewrite (insert_by_weight_perm r rels). constructor; [|exact Hx].
      now apply Qlt_le_weak.
    + apply Qltb_false in E. cbn [Extra.descending]. split; [|split; assumption].
      constructor; [exact E|].
      eapply Forall_impl; [exact Hx|]. intros y Hy. cbv beta in Hy.
      eapply Qle_trans; [exact Hy | exact E].
Qed.

Lemma sorted_by_weight_descending rels :
  Extra.descending (RelationshipExtractor.sorted_by_weight_desc rels).
Proof.
  unfold RelationshipExtractor.sorted_by_weight_desc.
  induction rels as [|x rels IH]; [exact I|].
  cbn [foldr]. now apply insert_by_weight_descending.
Qed.

Lemma descending_sublist rels rels' :
  rels' `sublist_of` rels -> Extra.descending rels -> Extra.descending rels'.
Proof.
  induction 1 as [|x l1 l2 Hsub IH|x l1 l2 Hsub IH]; intros Hd.
  - exact I.
  - destruct Hd as [Hx Hd]. split; [|now apply IH].
    apply Forall_forall. intros y Hy.
    rewrite Forall_forall in Hx. apply Hx. eapply elem_of_sublist; eassumption.
  - destruct Hd as [_ Hd]. now apply IH.
Qed.

Lemma apply_threshold_sublist rels : forall kept,
  RelationshipExtractor.apply_threshold rels = Ok kept ->
  kept `sublist_of` rels
  /\ Forall (fun r => RelationshipExtractor.meets_threshold r = Ok true) kept.
Proof.
  induction rels as [|r rels IH]; intros kept Hk.
  - injection Hk as <-. split; constructor.
  - cbn [RelationshipExtractor.apply_threshold] in Hk.
    destruct (RelationshipExtractor.meets_threshold r) as [keep|e] eqn:Em; [|discriminate].
    cbn [bind] in Hk.
    destruct (RelationshipExtractor.apply_threshold rels) as [rest|e]; [|discriminate].
    cbn [bind] in Hk. injection Hk as <-.
    destruct (IH rest eq_refl) as [Hs Hf].
    destruct keep; split.
    + now apply sublist_skip.
    + now constructor.
    + now apply sublist_cons.
    + exact Hf.
Qed.

Lemma enforce_limit_sublist rels : forall counts,
  RelationshipExtractor.enforce_limit rels counts `sublist_of` rels.
Proof.
  induction rels as [|r rels IH]; intros counts; [constructor|].
  cbn [RelationshipExtractor.enforce_limit].
  destruct (_ && _); [apply sublist_skip | apply sublist_cons]; apply IH.
Qed.

(** What [filter_relationships] returns is ranked by decreasing weight,
    and consists of relationships of its input whose similarity score
    reaches the threshold. *)
Theorem filter_relationships_ranked rels out :
  RelationshipExtractor.filter_relationships rels = Ok out ->
  Extra.descending out
  /\ Forall (fun r => In r rels
                      /\ RelationshipExtractor.meets_threshold r = Ok true) out
  /\ (length out <= length rels)%nat.
Proof.
  unfold RelationshipExtractor.filter_relationships.
  destruct rels as [|r0 rels0].
  { intros Heq. injection Heq as <-. repeat split; constructor. }
  set (rels := r0 :: rels0).
  destruct (RelationshipExtractor.apply_threshold
              (RelationshipExtractor.sorted_by_weight_desc rels))
    as [kept|e] eqn:Ek; [|discriminate].
  cbn [bind]. intros Heq. injection Heq as <-.
  destruct (apply_threshold_sublist _ _ Ek) as [Hsub Hmeet].
  pose proof (enforce_limit_sublist kept ∅) as Hsub2.
  assert (Hall : RelationshipExtractor.enforce_limit kept ∅
                 `sublist_of` RelationshipExtractor.sorted_by_weight_desc rels)
    by (etransitivity; eassumption).
  split; [|split].
  - eapply descending_sublist; [exact Hall | apply sorted_by_weight_descending].
  - apply Forall_forall. intros r Hr. split.
    + apply list_elem_of_In. rewrite <- (sorted_by_weight_perm rels).
      eapply elem_of_sublist; eassumption.
    + rewrite Forall_forall in Hmeet. apply Hmeet.
      eapply elem_of_sublist; eassumption.
  - rewrite <- (Permutation_length (sorted_by_weight_perm rels)).
    now apply sublist_length.
Qed.

Lemma fan_out_perm n rels rels' :
  rels ≡ₚ rels' -> Spec.fan_out n rels = Spec.fan_out n rels'.
Proof.
  unfold Spec.fan_out.
  induction 1 as [|x l l' _ IH|x y l|l l' l'' _ IH1 _ IH2]; simpl.
  - reflexivity.
  - destruct (Spec.touches n x); simpl; now rewrite IH.
  - destruct (Spec.touches n x), (Spec.touches n y); reflexivity.
  - now rewrite IH1.
Qed.

Lemma apply_threshold_all rels :
  Forall (fun r => RelationshipExtractor.meets_threshold r = Ok true) rels ->
  RelationshipExtractor.apply_threshold rels = Ok rels.
Proof.
  induction 1 as [|r rels Hr _ IH]; [reflexivity|].
  cbn [RelationshipExtractor.apply_threshold]. rewrite Hr, IH. reflexivity.
Qed.

Lemma enforce_limit_all rels : forall counts,
  (forall n, (Spec.count_of counts n + Spec.fan_out n rels
              <= RelationshipExtractor.MAX_RELATIONSHIPS_PER_NODE)%nat) ->
  RelationshipExtractor.enforce_limit rels counts = rels.
Proof.
  induction rels as [|r rels IH]; intros counts Hcap; [reflexivity|].
  cbn [RelationshipExtractor.enforce_limit].
  fold (Spec.count_of counts (Relationship.source_id r)).
  fold (Spec.count_of counts (Relationship.target_id r)).
  assert (Hs : (Spec.count_of counts (Relationship.source_id r)
                < RelationshipExtractor.MAX_RELATIONSHIPS_PER_NODE)%nat).
  { specialize (Hcap (Relationship.source_id r)). rewrite fan_out_cons in Hcap.
    unfold Spec.touches in Hcap. rewrite String.eqb_refl in Hcap. simpl in Hcap. lia. }
  assert (Ht : (Spec.count_of counts (Relationship.target_id r)
                < RelationshipExtractor.MAX_RELATIONSHIPS_PER_NODE)%nat).
  { specialize (Hcap (Relationship.target_id r)). rewrite fan_out_cons in Hcap.
    unfold Spec.touches in Hcap. rewrite String.eqb_refl, orb_true_r in Hcap.
    simpl in Hcap. lia. }
  apply Nat.ltb_lt in Hs. apply Nat.ltb_lt in Ht. rewrite Hs, Ht. cbn [andb].
  f_equal. apply IH. intros n. rewrite count_after_keep.
  specialize (Hcap n). rewrite fan_out_cons in Hcap. lia.
Qed.

(** When every relationship reaches the similarity threshold and no
    node id occurs in more than 20 of them, the filter drops nothing: it
    returns its input, reordered by decreasing weight. *)
Theorem filter_relationships_keeps_all rels :
  Forall (fun r => RelationshipExtractor.meets_threshold r = Ok true) rels ->
  (forall n, (Spec.fan_out n rels <= 20)%nat) ->
  RelationshipExtractor.filter_relationships rels
  = Ok (RelationshipExtractor.sorted_by_weight_desc rels)
  /\ RelationshipExtractor.sorted_by_weight_desc rels ≡ₚ rels.
Proof.
  intros Hmeet Hcap. split; [|apply sorted_by_weight_perm].
  unfold RelationshipExtractor.filter_relationships.
  destruct rels as [|r0 rels0]; [reflexivity|].
  set (rels := r0 :: rels0) in *.
  rewrite apply_threshold_all.
  - cbn [bind]. f_equal. apply enforce_limit_all. intros n.
    unfold Spec.count_of. rewrite lookup_empty. cbn [default].
    rewrite (fan_out_perm n _ rels (sorted_by_weight_perm rels)). apply Hcap.
  - rewrite Forall_forall in *. intros r Hr. apply Hmeet.
    now rewrite <- (sorted_by_weight_perm rels).
Qed.

Lemma fan_out_le_length n rels : (Spec.fan_out n rels <= length rels)%nat.
Proof.
  unfold Spec.fan_out. induction rels as [|r rels IH]; simpl; [lia|].
  destruct (Spec.touches n r); simpl; lia.
Qed.
End Filter.

Lemma filter_relationships_ranked_witness :
  let rels := [Extra.scored_edge 1 "a" "b" (1 # 2) (8 # 10);
               Extra.scored_edge 2 "b" "c" (9 # 10) (9 # 10);
               Extra.scored_edge 3 "a" "c" (7 # 10) (6 # 10)] in
  let out := [Extra.scored_edge 2 "b" "c" (9 # 10) (9 # 10);
              Extra.scored_edge 1 "a" "b" (1 # 2) (8 # 10)] in
  Extra.descending out
  /\ Forall (fun r => In r rels
                      /\ RelationshipExtractor.meets_threshold r = Ok true) out
  /\ (length out <= length rels)%nat.
Proof.
  cbv zeta. apply filter_relationships_ranked. vm_compute. reflexivity.
Defined.

Lemma filter_relationships_keeps_all_witness :
  let rels := [Extra.scored_edge 1 "a" "b" (1 # 2) (8 # 10);
               Extra.scored_edge 2 "b" "c" (9 # 10) (9 # 10)] in
  RelationshipExtractor.filter_relationships rels
  = Ok (RelationshipExtractor.sorted_by_weight_desc rels)
  /\ RelationshipExtractor.sorted_by_weight_desc rels ≡ₚ rels.
Proof.
  cbv zeta. apply filter_relationships_keeps_all.
  - repeat constructor.
  - intros n. etransitivity; [apply fan_out_le_length|]. simpl. lia.
Defined.


(** ** Extraction as a whole *)

Section ExtractionRuns.
Context `{StringLib}.
Implicit Types (self : RelationshipExtractor.t) (rels : list Relationship.t).






End ExtractionRuns.


Section DegenerateBatches.
Context `{StringLib}.

Lemma chunks_lengths {A : Type} (k : nat) : forall fuel (l : list A),
  Forall (fun batch => (length batch <= k)%nat) (RelationshipExtractor.chunks fuel k l).
Proof.
  induction fuel as [|fuel IH]; intros l; [constructor|].
  destruct l as [|x l]; [constructor|].
  cbn [RelationshipExtractor.chunks]. constructor; [|apply IH].
  rewrite length_take. lia.
Qed.

Lemma process_batches_singletons now self batches : forall rels,
  Forall (fun batch : list RelationshipExtractor.node => (length batch <= 1)%nat) batches ->
  RelationshipExtractor.process_batches now self batches rels = (Ok rels, self).
Proof.
  induction batches as [|batch batches IH]; intros rels Hb; [reflexivity|].
  inversion Hb as [|? ? Hlen Hrest]; subst.
  cbn [RelationshipExtractor.process_batches].
  assert (RelationshipExtractor.node_pairs batch = []) as ->.
  { destruct batch as [|x [|y batch]]; [reflexivity | reflexivity | simpl in Hlen; lia]. }
  cbn [RelationshipExtractor.lookup_pairs RelationshipExtractor.process_tasks].
  now apply IH.
Qed.

(** Pairs are formed inside a batch only: with a batch size of 1, and
    also with a negative one (for which there is no batch at all),
    [extract_relationships] returns the empty list for every node list,
    without consulting the similarity calculator or touching the cache. *)
Theorem degenerate_batch_size_extracts_nothing now self nodes b :
  (b = 1 \/ b < 0)%Z ->
  RelationshipExtractor.extract_relationships now self nodes (Some b) = (Ok [], self).
Proof.
  intros Hb. unfold RelationshipExtractor.extract_relationships.
  destruct nodes as [|nd nodes]; [reflexivity|].
  set (l := nd :: nodes).
  assert (Hne : Z.eqb b 0 = false) by (apply Z.eqb_neq; lia). rewrite Hne.
  unfold RelationshipExtractor.batches_of.
  destruct Hb as [-> | Hneg].
  - assert (Z.min 1 (Z.of_nat (length l)) = 1%Z) as -> by (simpl; lia).
    change (Z.eqb 1 0) with false. change (Z.ltb 1 0) with false. cbv iota.
    change (Z.to_nat 1) with 1%nat.
    rewrite process_batches_singletons by apply chunks_lengths.
    reflexivity.
  - assert (Z.min b (Z.of_nat (length l)) = b) as -> by lia.
    rewrite Hne.
    assert (Z.ltb b 0 = true) as -> by (apply Z.ltb_lt; lia).
    reflexivity.
Qed.
End DegenerateBatches.

Lemma degenerate_batch_size_extracts_nothing_witness :
  @RelationshipExtractor.extract_relationships Spec.plain_strings 0
    (Spec.constant_similarity (95 # 100))
    [Spec.bare_node "A"; Spec.bare_node "B"; Spec.bare_node "C"] (Some 1%Z)
  = (Ok [], Spec.constant_similarity (95 # 100)).
Proof.
  apply (@degenerate_batch_size_extracts_nothing Spec.plain_strings). now left.
Defined.

(** * Further properties of the relationship model *)

Section Construction.
Context `{StringLib}.

(** Construction succeeds exactly for a known type and a weight in
    [0,1], the type being checked first; the object keeps the fields it
    was given, and in its metadata the entries of the caller, sanitized,
    take precedence over the three defaults. *)
Theorem relationship_construction (now : Z) (uuid : nat) (ty src tgt : string)
    (w : Q) (md : gmap string value) :
  (In ty Relationship.RELATIONSHIP_TYPES -> (0 <= w <= 1)%Q ->
   exists r,
     Relationship.new now uuid ty src tgt w md = Ok r
     /\ Spec.edge_of r = (ty, src, tgt) /\ Relationship.weight r = w
     /\ Relationship.id r = uuid /\ Relationship.version r = 1%Z
     /\ (forall k v, md !! k = Some v ->
                     Relationship.metadata r !! k = Some (Relationship.sanitize_value v))
     /\ (md !! "source" = None ->
         Relationship.metadata r !! "source"
         = Some (VStr "knowledge-organization-service")))
  /\ (~ In ty Relationship.RELATIONSHIP_TYPES ->
      Relationship.new now uuid ty src tgt w md
      = Raise (RelationshipValidationError "Invalid relationship type"))
  /\ (In ty Relationship.RELATIONSHIP_TYPES -> ~ (0 <= w <= 1)%Q ->
      Relationship.new now uuid ty src tgt w md
      = Raise (RelationshipValidationError "Weight must be between 0.0 and 1.0")).
Proof.
  unfold Relationship.new, Relationship.__post_init__.
  cbn [Relationship.type Relationship.weight Relationship.metadata
       Relationship.source_id Relationship.target_id Relationship.id
       Relationship.created_at Relationship.updated_at Relationship.version].
  split; [|split].
  - intros Hty [H0 H1]. apply list_in_true in Hty. rewrite Hty.
    apply Qleb_true in H0. apply Qleb_true in H1. rewrite H0, H1. cbn [negb andb].
    eexists. split; [reflexivity|]. cbn.
    repeat split.
    + intros k v Hk. apply lookup_union_Some_l.
      unfold Relationship._sanitize_metadata. now rewrite lookup_fmap, Hk.
    + intros Hnone. rewrite lookup_union_r.
      * rewrite lookup_insert_ne by discriminate.
        rewrite lookup_insert_ne by discriminate.
        apply lookup_insert_eq.
      * unfold Relationship._sanitize_metadata. now rewrite lookup_fmap, Hnone.
  - intros Hty. rewrite list_in_false by exact Hty. reflexivity.
  - intros Hty Hw. apply list_in_true in Hty. rewrite Hty. cbn [negb].
    destruct (Qleb 0 w) eqn:E0; [|reflexivity].
    destruct (Qleb w 1) eqn:E1; [|reflexivity].
    exfalso. apply Hw. split; now apply Qleb_true.
Qed.
End Construction.

Section Updates.
Context `{StringLib}.
Variable parse_float : string -> option Q.
Variable merge_properties : gmap string value -> Relationship.t -> Relationship.t.

Lemma forallb_filter_same {A : Type} (p : A -> bool) (l : list A) :
  forallb p (List.filter p l) = true.
Proof.
  induction l as [|x l IH]; [reflexivity|]. simpl.
  destruct (p x) eqn:E; [|exact IH]. simpl. now rewrite E.
Qed.

(** [validate_properties] accepts a dictionary exactly when its type, if
    present, is one of the five type names and its weight, if present,
    converts to a float in [0,1]: the test on the required fields cannot
    fail, so a dictionary with neither key (an empty one included) is
    accepted.  [async_update] refuses the others without touching the
    store. *)
Theorem validate_properties_spec (properties : gmap string value) :
  (Relationship.validate_properties parse_float properties = true <->
   (properties !! "type" = None
    \/ exists s, properties !! "type" = Some (VStr s)
                 /\ In s Relationship.RELATIONSHIP_TYPES)
   /\ (properties !! "weight" = None
       \/ exists v q, properties !! "weight" = Some v
                      /\ Relationship.to_float parse_float v = Ok q
                      /\ (0 <= q <= 1)%Q))
  /\ (properties !! "type" = None -> properties !! "weight" = None ->
      Relationship.validate_properties parse_float properties = true)
  /\ (Relationship.validate_properties parse_float properties = false ->
      forall now self store,
        Relationship.async_update parse_float merge_properties now self properties store
        = (Relationship.InvalidUpdateProperties, store)).
Proof.
  unfold Relationship.validate_properties.
  rewrite forallb_filter_same. cbn [negb].
  split; [|split].
  - split.
    + intros Hv. split.
      * destruct (properties !! "type") as [[| | |s]|]; try discriminate; [|now left].
        right. exists s. split; [reflexivity|].
        destruct (list_in s Relationship.RELATIONSHIP_TYPES) eqn:E; [|discriminate].
        now apply list_in_true.
      * destruct (match properties !! "type" with
                  | Some (VStr s) => negb (list_in s Relationship.RELATIONSHIP_TYPES)
                  | Some _ => true
                  | None => false
                  end); [discriminate|].
        destruct (properties !! "weight") as [v|]; [|now left].
        right. destruct (Relationship.to_float parse_float v) as [q|e] eqn:Ef;
          [|discriminate].
        exists v, q. apply andb_true_iff in Hv. destruct Hv as [H0 H1].
        split; [reflexivity|]. split; [exact Ef|]. split; now apply Qleb_true.
    + intros [Hty Hw].
      assert (match properties !! "type" with
              | Some (VStr s) => negb (list_in s Relationship.RELATIONSHIP_TYPES)
              | Some _ => true
              | None => false
              end = false) as ->.
      { destruct Hty as [-> | [s [-> Hs]]]; [reflexivity|].
        apply list_in_true in Hs. now rewrite Hs. }
      destruct Hw as [-> | [v [q [-> [-> [H0 H1]]]]]]; [reflexivity|].
      apply andb_true_iff. split; now apply Qleb_true.
  - intros -> ->. reflexivity.
  - intros Hv now self store. unfold Relationship.async_update.
    unfold Relationship.validate_properties.
    rewrite forallb_filter_same. cbn [negb]. rewrite Hv. reflexivity.
Qed.




End Updates.


(** * Further properties of the builder *)

Section NodeValidation.
Implicit Types (nodes : list RelationshipExtractor.node) (seen : list string).

Lemma validate_structure_iff nodes : forall seen,
  GraphBuilder.validate_structure nodes seen = true <->
  Forall Extra.complete_node nodes
  /\ List.NoDup (map RelationshipExtractor.node_id nodes)
  /\ Forall (fun node => forall id, RelationshipExtractor.node_id node = Some id ->
                                    ~ In id seen) nodes.
Proof.
  induction nodes as [|node nodes IH]; intros seen.
  - simpl. split; [intros _; repeat split; constructor | reflexivity].
  - cbn [GraphBuilder.validate_structure map].
    destruct (RelationshipExtractor.node_id node) as [id|] eqn:Ei;
      [|split; [discriminate|]; intros (Hc & _); inversion Hc as [|? ? Hn _]; subst;
        destruct Hn as (Hid & _); congruence].
    destruct (RelationshipExtractor.content node) as [c|] eqn:Ec;
      [|split; [discriminate|]; intros (Hc & _); inversion Hc as [|? ? Hn _]; subst;
        destruct Hn as (_ & Hco & _); congruence].
    destruct (RelationshipExtractor.vector node) as [v|] eqn:Ev;
      [|split; [discriminate|]; intros (Hc & _); inversion Hc as [|? ? Hn _]; subst;
        destruct Hn as (_ & _ & v' & Hv & _); congruence].
    destruct (list_in id seen) eqn:Es.
    { apply list_in_true in Es. split; [discriminate|].
      intros (_ & _ & Hs). inversion Hs as [|? ? Hn _]; subst.
      exfalso. exact (Hn id Ei Es). }
    destruct (GraphBuilder.is_list_or_tuple v) eqn:El; cbn [negb];
      [|split; [discriminate|]; intros (Hc & _); inversion Hc as [|? ? Hn _]; subst;
        destruct Hn as (_ & _ & v' & Hv & Hl); congruence].
    rewrite IH. split.
    + intros (Hc & Hnd & Hs). split; [|split].
      * constructor; [|exact Hc]. unfold Extra.complete_node.
        rewrite Ei, Ec, Ev. split; [discriminate|]. split; [discriminate|].
        now exists v.
      * constructor; [|exact Hnd]. intros Hin.
        apply in_map_iff in Hin. destruct Hin as [node' [Heq Hin']].
        rewrite Forall_forall in Hs. apply list_elem_of_In in Hin'.
        apply (Hs node' Hin' id Heq). now left.
      * constructor.
        -- intros id' Heq Hin. rewrite Ei in Heq. injection Heq as <-.
           apply list_in_true in Hin. congruence.
        -- eapply Forall_impl; [exact Hs|]. intros node' Hn id' Heq Hin.
           apply (Hn id' Heq). now right.
    + intros (Hc & Hnd & Hs). inversion Hc; subst. inversion Hnd; subst.
      inversion Hs; subst. split; [assumption|]. split; [assumption|].
      apply Forall_forall. intros node' Hin' id' Heq [<- | Hin].
      * match goal with Hn : ~ In _ (map _ nodes) |- _ => apply Hn end.
        rewrite <- Heq. apply in_map. now apply list_elem_of_In.
      * match goal with Hf : Forall _ nodes |- _ =>
          rewrite Forall_forall in Hf; exact (Hf node' Hin' id' Heq Hin) end.
Qed.

Lemma validate_nodes_iff nodes :
  GraphBuilder.validate_nodes nodes = true <->
  (2 <= length nodes)%nat /\ (Z.of_nat (length nodes) <= 10000)%Z
  /\ Forall Extra.complete_node nodes
  /\ List.NoDup (map RelationshipExtractor.node_id nodes).
Proof.
  unfold GraphBuilder.validate_nodes, GraphBuilder.MIN_NODES_REQUIRED,
    GraphBuilder.MAX_GRAPH_SIZE.
  destruct (Nat.ltb_spec (length nodes) 2); [split; [discriminate | lia]|].
  destruct (Z.ltb_spec 10000 (Z.of_nat (length nodes))); [split; [discriminate | lia]|].
  rewrite validate_structure_iff. split.
  - intros (Hc & Hnd & _). split; [lia|]. split; [lia | now split].
  - intros (_ & _ & Hc & Hnd). split; [exact Hc|]. split; [exact Hnd|].
    apply Forall_forall. intros node _ id _ [].
Qed.
End NodeValidation.

Section Building.
Context `{StringLib}.

(** [validate_nodes] accepts a node list exactly when it has between 2
    and 10000 nodes, every node has the keys id, content and vector with a
    list or a tuple as vector, and no id occurs twice; for any other list
    [build_graph] raises GraphValidationError, whatever the extractor and
    the optimizer. *)
Theorem build_graph_validates_nodes (start_time end_time : Z) (uuid : string)
    (self : GraphBuilder.t) (nodes : list RelationshipExtractor.node)
    (name : string) (metadata : gmap string value) :
  (GraphBuilder.validate_nodes nodes = true <->
   (2 <= length nodes)%nat /\ (Z.of_nat (length nodes) <= 10000)%Z
   /\ Forall Extra.complete_node nodes
   /\ List.NoDup (map RelationshipExtractor.node_id nodes))
  /\ (~ ((2 <= length nodes)%nat /\ (Z.of_nat (length nodes) <= 10000)%Z
         /\ Forall Extra.complete_node nodes
         /\ List.NoDup (map RelationshipExtractor.node_id nodes)) ->
      GraphBuilder.build_graph start_time end_time uuid self nodes name metadata
      = Raise (GraphValidationError "Node validation failed")).
Proof.
  split; [apply validate_nodes_iff|].
  intros Hbad. rewrite build_graph_raises.
  destruct (GraphBuilder.validate_nodes nodes) eqn:E; [|reflexivity].
  apply validate_nodes_iff in E. contradiction.
Qed.
End Building.

(** * The complexity check of the builder *)

Section Complexity.
Implicit Types (rels : list Relationship.t) (n : string).

Lemma relationship_digraph_snoc rels r :
  GraphBuilder.relationship_digraph (rels ++ [r])
  = nx.add_edge (GraphBuilder.relationship_digraph rels)
      (Relationship.source_id r) (Relationship.target_id r)
      (nx.mk_data (Relationship.weight r) None).
Proof. unfold GraphBuilder.relationship_digraph. now rewrite fold_left_app. Qed.

Lemma relationship_digraph_nodes rels n :
  In n (nx.nodes (GraphBuilder.relationship_digraph rels)) <->
  exists r, In r rels /\ (Relationship.source_id r = n \/ Relationship.target_id r = n).
Proof.
  induction rels as [|x rels IH] using rev_ind.
  - simpl. split; [tauto | intros [r [[] _]]].
  - rewrite relationship_digraph_snoc, nodes_add_edge, IH. split.
    + intros [-> | [-> | [r [Hr Hn]]]].
      * exists x. split; [apply in_or_app; right; now left | now left].
      * exists x. split; [apply in_or_app; right; now left | now right].
      * exists r. split; [apply in_or_app; now left | exact Hn].
    + intros [r [Hr Hn]]. apply in_app_or in Hr. destruct Hr as [Hr | [<- | []]].
      * right. right. now exists r.
      * destruct Hn as [<- | <-]; tauto.
Qed.

Lemma list_sum_lower_bound (f : string -> nat) (k : nat) (l : list string) :
  (forall x, In x l -> k <= f x)%nat -> (k * length l <= list_sum (map f l))%nat.
Proof.
  induction l as [|x l IH]; intros Hall; simpl; [lia|].
  assert (k <= f x)%nat by (apply Hall; now left).
  assert (k * length l <= list_sum (map f l))%nat by (apply IH; intros; apply Hall; now right).
  lia.
Qed.

Lemma average_at_least (k total count : nat) :
  (0 < count)%nat -> (k * count <= total)%nat ->
  Qltb (inject_Z (Z.of_nat total) / inject_Z (Z.of_nat count))
       (inject_Z (Z.of_nat k)) = false.
Proof.
  intros Hc Hle. apply Qltb_false. apply Qle_shift_div_l.
  - change 0%Q with (inject_Z 0). rewrite <- Zlt_Qlt. lia.
  - rewrite <- inject_Z_mult, <- Zle_Qle. lia.
Qed.

(** A graph passes [validate_graph_complexity] exactly when the directed
    graph of its relationships is strongly connected and each of its nodes
    has degree at least 10; the nodes of that directed graph are the ids
    that occur as an endpoint of a relationship, so the check on the
    average degree never decides and a graph without relationships never
    passes. *)
Theorem validate_graph_complexity_spec (g : Graph.t) :
  let G := GraphBuilder.relationship_digraph (Graph.relationships g) in
  (GraphBuilder.validate_graph_complexity g = true <->
   (forall n, In n (nx.nodes G) -> (10 <= nx.degree G n)%nat)
   /\ nx.is_strongly_connected G = Ok true)
  /\ (forall n, In n (nx.nodes G) <->
        exists r, In r (Graph.relationships g)
                  /\ (Relationship.source_id r = n \/ Relationship.target_id r = n))
  /\ (Graph.relationships g = [] -> GraphBuilder.validate_graph_complexity g = false).
Proof.
  intros G. split; [|split].
  - unfold GraphBuilder.validate_graph_complexity. fold G.
    unfold GraphBuilder.MIN_CONNECTIONS_PER_NODE.
    destruct (existsb _ (nx.nodes G)) eqn:Ee.
    + split; [discriminate|]. intros [Hdeg _].
      apply existsb_exists in Ee. destruct Ee as [n [Hn Hlt]].
      apply Nat.ltb_lt in Hlt. specialize (Hdeg n Hn). lia.
    + assert (Hdeg : forall n, In n (nx.nodes G) -> (10 <= nx.degree G n)%nat).
      { intros n Hn. destruct (Nat.ltb_spec (nx.degree G n) 10) as [Hlt|]; [|assumption].
        assert (existsb (fun node => Nat.ltb (nx.degree G node) 10) (nx.nodes G) = true)
          as Hex by (apply existsb_exists; exists n; split;
                     [assumption | now apply Nat.ltb_lt]).
        congruence. }
      destruct (nx.is_strongly_connected G) as [[|]|e] eqn:Es.
      * split; [intros _; now split|]. intros _.
        destruct (map (nx.degree G) (nx.nodes G)) as [|d ds] eqn:Em.
        -- unfold nx.is_strongly_connected in Es.
           destruct (nx.nodes G); [discriminate | discriminate].
        -- rewrite <- Em. rewrite average_at_least; [reflexivity| |].
           ++ rewrite Em. simpl. lia.
           ++ rewrite length_map. now apply list_sum_lower_bound.
      * split; [discriminate|]. intros [_ Hs]. discriminate.
      * split; [discriminate|]. intros [_ Hs]. discriminate.
  - intros n. apply relationship_digraph_nodes.
  - intros Hnil. unfold GraphBuilder.validate_graph_complexity. rewrite Hnil.
    reflexivity.
Qed.
End Complexity.

(** * Changing a graph object *)

Section Mutators.
Context `{StringLib}.

(** Neither mutator of [Graph] ever changes a graph.
    [add_relationships_batch] raises GraphOperationError for every graph
    and batch: for more than 1000 relationships on the size test, for a
    relationship that fails validation on the record of the warning, and
    otherwise on [self._db.begin_transaction()].  [add_node], given a
    [dict], raises AttributeError: the body fails on [node.validate()] and
    the handler on [node.id]. *)
Theorem graph_mutators_always_raise (now : Z) (g : Graph.t)
    (batch : list Relationship.t) (node : RelationshipExtractor.node) :
  Graph.add_relationships_batch now g batch
  = Raise (GraphOperationError "Failed to add relationships batch")
  /\ Graph.add_node now g node
     = Raise (AttributeError "'dict' object has no attribute 'id'")
  /\ (forall nodes, nodes <> [] -> exists e, GraphBuilder.add_nodes now g nodes = Raise e).
Proof.
  split; [apply add_relationships_batch_raises|]. split; [apply add_node_raises|].
  intros [|n nodes] Hne; [contradiction|].
  cbn [GraphBuilder.add_nodes]. rewrite add_node_raises. cbn [bind]. eauto.
Qed.
End Mutators.

(** * Further properties of the optimizer *)

Section StoreUpdates.
Implicit Types (store rels batch : list Relationship.t) (r old new : Relationship.t).

Lemma same_but_weight_refl r : Extra.same_but_weight r r.
Proof. now destruct r. Qed.

Lemma clip_bounds (x : Q) :
  (GraphOptimizer.MIN_RELATIONSHIP_WEIGHT
   <= GraphOptimizer.clip x GraphOptimizer.MIN_RELATIONSHIP_WEIGHT
        GraphOptimizer.MAX_RELATIONSHIP_WEIGHT
   <= GraphOptimizer.MAX_RELATIONSHIP_WEIGHT)%Q.
Proof.
  unfold GraphOptimizer.clip, py_min, py_max, GraphOptimizer.MIN_RELATIONSHIP_WEIGHT,
    GraphOptimizer.MAX_RELATIONSHIP_WEIGHT.
  destruct (Qltb (1 # 10) x) eqn:E1.
  - apply Qltb_true in E1. destruct (Qltb x 1) eqn:E2.
    + apply Qltb_true in E2. split; now apply Qlt_le_weak.
    + split; [discriminate | apply Qle_refl].
  - change (Qltb (1 # 10) 1) with true. cbv iota. split; [apply Qle_refl | discriminate].
Qed.

Lemma Forall2_map_left (A B C : Type) (P : B -> C -> Prop) (f : A -> B) (l : list A) :
  forall k, Forall2 P (map f l) k -> Forall2 (fun x y => P (f x) y) l k.
Proof.
  induction l as [|x l IH]; intros k Hk; inversion Hk; subst; constructor; auto.
Qed.

Lemma update_weights_rows updates : forall store,
  Forall2 (Extra.updated_by updates) store (GraphOptimizer.update_weights updates store).
Proof.
  induction updates as [|u updates IH]; intros store.
  - cbn. induction store as [|r store IHs]; constructor; [|exact IHs].
    split; [apply same_but_weight_refl|]. left. split; [reflexivity | intros u []].
  - cbn [GraphOptimizer.update_weights fold_left].
    specialize (IH (map (fun r => if Nat.eqb (Relationship.id r) u.1
                                  then GraphOptimizer.set_weight r u.2 else r) store)).
    unfold GraphOptimizer.update_weights in IH.
    apply Forall2_map_left in IH. eapply Forall2_impl; [exact IH|].
    intros old new [Hs Hc]. cbn in Hs, Hc.
    destruct (Nat.eqb_spec (Relationship.id old) u.1) as [Heq|Hne].
    + split.
      * unfold Extra.same_but_weight in *. rewrite <- Hs. now destruct old.
      * right. destruct Hc as [[Hn _] | [u' [Hin [Hid Hw]]]].
        -- exists u. split; [now left|]. split; [now symmetry|]. now subst new.
        -- exists u'. split; [now right|]. split; [|exact Hw]. now rewrite Hid.
    + split; [exact Hs|]. destruct Hc as [[Hn Hall] | [u' [Hin [Hid Hw]]]].
      * left. split; [exact Hn|]. intros u' [<- | Hin]; [congruence | now apply Hall].
      * right. exists u'. split; [now right | now split].
Qed.

Lemma filter_sublist (A : Type) (p : A -> bool) (l : list A) :
  sublist (List.filter p l) l.
Proof.
  induction l as [|x l IH]; [constructor|]. cbn [List.filter].
  destruct (p x); [now apply sublist_skip | now apply sublist_cons].
Qed.
End StoreUpdates.

Section OptimizerPasses.
Variable an : GraphOptimizer.analytics.
Implicit Types (self : GraphOptimizer.t) (store rels batch : list Relationship.t)
  (r old new : Relationship.t).

Lemma in_batch_true batch r :
  Extra.in_batch batch r = true <->
  exists b, In b batch /\ Relationship.id b = Relationship.id r.
Proof.
  unfold Extra.in_batch. rewrite existsb_exists.
  split; intros [b [Hb He]]; exists b; (split; [exact Hb|]); now apply Nat.eqb_eq.
Qed.

Lemma optimize_weights_rows self batch b :
  (GraphOptimizer.optimize_weights an self batch).1 = Ok b ->
  b = true
  /\ Forall2 (fun old new =>
                Extra.same_but_weight old new
                /\ if Extra.in_batch batch old
                   then (GraphOptimizer.MIN_RELATIONSHIP_WEIGHT
                         <= Relationship.weight new
                         <= GraphOptimizer.MAX_RELATIONSHIP_WEIGHT)%Q
                   else new = old)
       (GraphOptimizer._db_conn self)
       (GraphOptimizer._db_conn (GraphOptimizer.optimize_weights an self batch).2).
Proof.
  unfold GraphOptimizer.optimize_weights.
  destruct (GraphOptimizer.pagerank an _) as [scores|e]; [|discriminate].
  match goal with |- context [match map ?g batch with _ => _ end] => set (f := g) end.
  assert (Hf1 : forall x, (f x).1 = Relationship.id x) by reflexivity.
  assert (Hf2 : forall x, (GraphOptimizer.MIN_RELATIONSHIP_WEIGHT <= (f x).2
                           <= GraphOptimizer.MAX_RELATIONSHIP_WEIGHT)%Q)
    by (intros x; apply clip_bounds).
  clearbody f.
  assert (Hrows : Forall2 (fun old new =>
                Extra.same_but_weight old new
                /\ if Extra.in_batch batch old
                   then (GraphOptimizer.MIN_RELATIONSHIP_WEIGHT
                         <= Relationship.weight new
                         <= GraphOptimizer.MAX_RELATIONSHIP_WEIGHT)%Q
                   else new = old)
            (GraphOptimizer._db_conn self)
            (GraphOptimizer.update_weights (map f batch) (GraphOptimizer._db_conn self))).
  { eapply Forall2_impl; [apply update_weights_rows|].
    intros old new [Hs Hc]. split; [exact Hs|].
    destruct (Extra.in_batch batch old) eqn:Eb.
    - apply in_batch_true in Eb. destruct Eb as [x [Hx Hid]].
      destruct Hc as [[_ Hnone] | [u [Hu [_ Hw]]]].
      + exfalso. apply (Hnone (f x)); [now apply in_map | now rewrite Hf1].
      + apply in_map_iff in Hu. destruct Hu as [y [<- _]]. rewrite Hw. apply Hf2.
    - destruct Hc as [[Hn _] | [u [Hu [Hid _]]]]; [exact Hn|].
      apply in_map_iff in Hu. destruct Hu as [y [<- Hy]]. rewrite Hf1 in Hid.
      assert (Extra.in_batch batch old = true) as Hin
        by (apply in_batch_true; now exists y).
      congruence. }
  destruct (map f batch) as [|u updates] eqn:Em.
  - intros Heq. injection Heq as <-. split; [reflexivity|]. exact Hrows.
  - intros Heq. injection Heq as <-. split; [reflexivity|]. exact Hrows.
Qed.

(** ** The redundancy pass *)

Lemma set_edge_ids u v d i (es : list (string * string * nx.edge_data)) e :
  nx.id d = Some i ->
  In e (nx.set_edge u v d es) -> In e es \/ nx.id e.2 = Some i.
Proof.
  intros Hd. induction es as [|x es IH]; cbn [nx.set_edge].
  - intros [<- | []]. now right.
  - destruct (nx.same_endpoints u v x).
    + intros [<- | He]; [right | left; now right].
      cbn. now rewrite Hd.
    + intros [<- | He]; [left; now left|].
      destruct (IH He); [left; now right | now right].
Qed.

Lemma digraph_with_ids_edge_ids batch e :
  In e (nx.edges (GraphOptimizer.digraph_with_ids batch)) ->
  exists b, In b batch /\ nx.id e.2 = Some (Relationship.id b).
Proof.
  revert e. induction batch as [|x batch IH] using rev_ind; intros e He; [destruct He|].
  rewrite digraph_with_ids_snoc in He. unfold nx.add_edge in He. cbn [nx.edges] in He.
  rewrite !edges_add_node in He.
  apply (set_edge_ids _ _ _ (Relationship.id x)) in He; [|reflexivity].
  destruct He as [He | He].
  - destruct (IH e He) as [b [Hb Hid]]. exists b. split; [|exact Hid].
    apply in_or_app. now left.
  - exists x. split; [|exact He]. apply in_or_app. right. now left.
Qed.

Lemma redundant_edges_ids (G : nx.DiGraph) i :
  In i (GraphOptimizer.redundant_edges G) ->
  exists e, In e (nx.edges G) /\ nx.id e.2 = Some i.
Proof.
  unfold GraphOptimizer.redundant_edges. intros Hi.
  apply in_flat_map in Hi. destruct Hi as [[source target] [_ Hi]].
  destruct (Nat.ltb 1 _); [|destruct Hi].
  unfold nx.get_edge in Hi.
  destruct (List.find _ (nx.edges G)) as [e|] eqn:Ef; [|destruct Hi].
  apply find_some in Ef. destruct Ef as [He _].
  destruct (Qltb _ _); [|destruct Hi].
  destruct (nx.id e.2) as [j|] eqn:Ej; [|destruct Hi].
  destruct Hi as [<- | []]. now exists e.
Qed.

Lemma delete_relationships_keeps ids store r :
  In r store -> ~ In (Relationship.id r) ids ->
  In r (GraphOptimizer.delete_relationships ids store).
Proof.
  intros Hr Hn. unfold GraphOptimizer.delete_relationships.
  apply filter_In. split; [exact Hr|]. apply negb_true_iff.
  destruct (existsb _ ids) eqn:E; [|reflexivity].
  apply existsb_exists in E. destruct E as [i [Hi He]].
  apply Nat.eqb_eq in He. subst i. contradiction.
Qed.

Lemma remove_redundant_store self batch :
  let self' := (GraphOptimizer.remove_redundant_relationships self batch).2 in
  (GraphOptimizer.remove_redundant_relationships self batch).1 = Ok true
  /\ sublist (GraphOptimizer._db_conn self') (GraphOptimizer._db_conn self)
  /\ forall r, In r (GraphOptimizer._db_conn self) -> Extra.in_batch batch r = false ->
               In r (GraphOptimizer._db_conn self').
Proof.
  cbv zeta. unfold GraphOptimizer.remove_redundant_relationships.
  destruct (GraphOptimizer.redundant_edges _) as [|i ids] eqn:Er.
  - cbn. split; [reflexivity|]. split; [reflexivity | auto].
  - cbn [fst snd GraphOptimizer.with_store GraphOptimizer._db_conn].
    split; [reflexivity|]. split; [apply filter_sublist|].
    intros r Hr Hb. apply delete_relationships_keeps; [exact Hr|].
    intros Hin. rewrite <- Er in Hin. apply redundant_edges_ids in Hin.
    destruct Hin as [e [He Hid]]. apply digraph_with_ids_edge_ids in He.
    destruct He as [b [Hb' Hid']].
    assert (Extra.in_batch batch r = true) as Ht; [|congruence].
    apply in_batch_true. exists b. split; [exact Hb'|]. congruence.
Qed.

(** [optimize_weights] never adds or removes a row of the store and
    changes nothing but weights: when it succeeds, a row whose id is the id
    of a relationship of the batch ends with a weight between 0.1 and 1,
    every other row is as before. *)
Theorem optimize_weights_spec self batch b :
  (GraphOptimizer.optimize_weights an self batch).1 = Ok b ->
  b = true
  /\ Forall2 (fun old new =>
                Extra.same_but_weight old new
                /\ if Extra.in_batch batch old
                   then (GraphOptimizer.MIN_RELATIONSHIP_WEIGHT
                         <= Relationship.weight new
                         <= GraphOptimizer.MAX_RELATIONSHIP_WEIGHT)%Q
                   else new = old)
       (GraphOptimizer._db_conn self)
       (GraphOptimizer._db_conn (GraphOptimizer.optimize_weights an self batch).2).
Proof. apply optimize_weights_rows. Qed.

(** [remove_redundant_relationships] always answers True; the store it
    leaves is a subsequence of the store it found, and a row whose id is
    not the id of a relationship of the batch is never deleted. *)
Theorem remove_redundant_relationships_spec self batch :
  let self' := (GraphOptimizer.remove_redundant_relationships self batch).2 in
  (GraphOptimizer.remove_redundant_relationships self batch).1 = Ok true
  /\ sublist (GraphOptimizer._db_conn self') (GraphOptimizer._db_conn self)
  /\ forall r, In r (GraphOptimizer._db_conn self) -> Extra.in_batch batch r = false ->
               In r (GraphOptimizer._db_conn self').
Proof. apply remove_redundant_store. Qed.
End OptimizerPasses.

Lemma optimize_weights_spec_witness :
  let self := Spec.optimizer_on Extra.triangle in
  let out := GraphOptimizer.optimize_weights GraphOptimizer.networkx self Extra.triangle in
  out.1 = Ok true
  /\ Forall2 (fun old new =>
                Extra.same_but_weight old new
                /\ if Extra.in_batch Extra.triangle old
                   then (GraphOptimizer.MIN_RELATIONSHIP_WEIGHT
                         <= Relationship.weight new
                         <= GraphOptimizer.MAX_RELATIONSHIP_WEIGHT)%Q
                   else new = old)
       (GraphOptimizer._db_conn self) (GraphOptimizer._db_conn out.2).
Proof.
  cbv zeta.
  assert ((GraphOptimizer.optimize_weights GraphOptimizer.networkx
             (Spec.optimizer_on Extra.triangle) Extra.triangle).1 = Ok true) as E
    by (vm_compute; reflexivity).
  split; [exact E|].
  exact (proj2 (optimize_weights_spec GraphOptimizer.networkx
                  (Spec.optimizer_on Extra.triangle) Extra.triangle true E)).
Defined.

(** * Metrics need a strongly connected graph *)

Section Metrics.

Lemma compute_metrics_strongly_connected (G : nx.DiGraph) m :
  GraphOptimizer.compute_metrics GraphOptimizer.networkx G = Ok m ->
  nx.is_strongly_connected G = Ok true.
Proof.
  unfold GraphOptimizer.compute_metrics. cbn [GraphOptimizer.networkx
    GraphOptimizer.average_clustering GraphOptimizer.average_shortest_path_length
    GraphOptimizer.diameter].
  unfold nx.average_clustering, nx.is_strongly_connected, nx.diameter.
  destruct (nx.nodes G) as [|n ns] eqn:En; [discriminate|]. cbn [bind].
  destruct (nx.average_shortest_path_length G); [|discriminate]. cbn [bind].
  destruct (forallb _ (n :: ns)); [reflexivity | discriminate].
Qed.

(** With networkx computing them, the metrics of [calculate_metrics] exist
    only for a strongly connected directed graph: on any other the
    computation raises.  [optimize] fails before any pass has touched the
    store whatever the graph is: it raises at its first statement and
    leaves the optimizer as it was. *)
Theorem optimize_needs_strong_connectivity (G : nx.DiGraph) :
  nx.is_strongly_connected G <> Ok true ->
  (exists e, GraphOptimizer.compute_metrics GraphOptimizer.networkx G = Raise e)
  /\ forall (start_time end_time : Z) (next_uuid : nat) (self : GraphOptimizer.t)
       (graph : Graph.t),
       exists e,
         GraphOptimizer.optimize GraphOptimizer.networkx
           start_time end_time next_uuid self graph = (Raise e, self).
Proof.
  intros Hnot. split.
  - destruct (GraphOptimizer.compute_metrics _ G) as [m|e] eqn:E; [|now exists e].
    apply compute_metrics_strongly_connected in E. contradiction.
  - intros. rewrite optimize_raises. eauto.
Qed.
End Metrics.

Lemma optimize_needs_strong_connectivity_witness :
  (exists e,
     GraphOptimizer.compute_metrics GraphOptimizer.networkx
       (GraphBuilder.relationship_digraph Extra.single_edge) = Raise e)
  /\ exists e,
       GraphOptimizer.optimize GraphOptimizer.networkx 0 1 100
         (Spec.optimizer_on Extra.single_edge) (Spec.graph_of Extra.single_edge)
       = (Raise e, Spec.optimizer_on Extra.single_edge).
Proof.
  assert (nx.is_strongly_connected
            (GraphBuilder.relationship_digraph Extra.single_edge) <> Ok true) as Hnot
    by (vm_compute; discriminate).
  destruct (optimize_needs_strong_connectivity _ Hnot) as [Hm Ho].
  split; [exact Hm | apply Ho].
Defined.

(** * Relationships lead forward in the node list *)

Section Forward.
Implicit Types (ids : list (option string)) (seen next : list string)
  (rels : list Relationship.t) (G : nx.DiGraph) (u v : string).






(** ** Reachability in a graph whose edges lead forward *)







End Forward.

Section ForwardExtraction.
Context `{StringLib}.
Variable ids : list (option string).
Implicit Types (self : RelationshipExtractor.t) (rels : list Relationship.t)
  (pairs : list (RelationshipExtractor.node * RelationshipExtractor.node))
  (tasks : list RelationshipExtractor.task).





End ForwardExtraction.

Section ForwardRuns.
Context `{StringLib}.
Implicit Types (self : RelationshipExtractor.t) (nodes : list RelationshipExtractor.node).


End ForwardRuns.


(** * The builder with the components it ships with *)

Section Shipped.
Context `{StringLib}.
Implicit Types (g graph : Graph.t) (batch rels : list Relationship.t).

End Shipped.


(** * The cycle check of the API schema *)

Section CycleCheck.
Variable edges : list (string * string).
Implicit Types (visited path : list string) (vertex : string).

Lemma neighbours_edge vertex n :
  In n (Schemas.neighbours edges vertex) -> In (vertex, n) edges.
Proof.
  unfold Schemas.neighbours. intros Hn. apply in_map_iff in Hn.
  destruct Hn as [[u v] [<- He]]. apply filter_In in He. destruct He as [He Hu].
  apply String.eqb_eq in Hu. cbn in Hu. now subst u.
Qed.

Lemma dfs_sound fuel : forall visited path vertex,
  (forall p, In p path -> Extra.walk edges p vertex) ->
  (Schemas.dfs edges fuel visited path vertex).1 = true ->
  exists v, Extra.walk edges v v.
Proof.
  induction fuel as [|fuel IH]; intros visited path vertex Hpath; [discriminate|].
  cbn [Schemas.dfs].
  assert (Hns : forall n, In n (Schemas.neighbours edges vertex) -> In (vertex, n) edges)
    by apply neighbours_edge.
  assert (Hfalse : (false, vertex :: visited).1 = true -> exists v, Extra.walk edges v v)
    by discriminate.
  revert Hns Hfalse.
  generalize (false, vertex :: visited) as st.
  induction (Schemas.neighbours edges vertex) as [|n ns IHns]; intros st Hns Hst Hres.
  - now apply Hst.
  - cbn [fold_left] in Hres. revert Hres. apply IHns.
    + intros m Hm. apply Hns. now right.
    + destruct st as [found vis]. destruct found; [exact Hst|].
      assert (Hn : In (vertex, n) edges) by (apply Hns; now left).
      destruct (list_in n vis) eqn:Ev; cbn [negb].
      * destruct (list_in n (vertex :: path)) eqn:Ep; [|discriminate].
        intros _. apply list_in_true in Ep. exists n.
        destruct Ep as [<- | Hp]; [now apply Extra.walk_edge|].
        eapply Extra.walk_step; [now apply Hpath | exact Hn].
      * apply IH. intros p [<- | Hp]; [now apply Extra.walk_edge|].
        eapply Extra.walk_step; [now apply Hpath | exact Hn].
Qed.

Lemma has_cycle_sound :
  Schemas._has_cycle edges = true -> exists v, Extra.walk edges v v.
Proof.
  unfold Schemas._has_cycle.
  assert (Hfalse : (false, @nil string).1 = true -> exists v, Extra.walk edges v v)
    by discriminate.
  revert Hfalse. generalize (false, @nil string) as st.
  induction (Schemas.sources edges) as [|vertex vs IHvs]; intros st Hst Hres.
  - now apply Hst.
  - cbn [fold_left] in Hres. revert Hres. apply IHvs.
    destruct st as [found vis]. destruct found; [exact Hst|].
    destruct (list_in vertex vis); cbn [negb]; [discriminate|].
    apply dfs_sound. intros p [].
Qed.

End CycleCheck.

Section CycleCheckComplete.
Variable edges : list (string * string).
Implicit Types (visited path : list string) (vertex : string).

Lemma edge_neighbours vertex n :
  In (vertex, n) edges -> In n (Schemas.neighbours edges vertex).
Proof.
  intros He. unfold Schemas.neighbours. apply in_map_iff. exists (vertex, n).
  split; [reflexivity|]. apply filter_In. split; [exact He|]. apply String.eqb_refl.
Qed.

Lemma vertices_length : length (Extra.vertices edges) = (2 * length edges)%nat.
Proof.
  unfold Extra.vertices. induction edges as [|e es IH]; [reflexivity|].
  cbn [flat_map length app]. rewrite IH. lia.
Qed.

Lemma edge_vertices u n :
  In (u, n) edges -> In u (Extra.vertices edges) /\ In n (Extra.vertices edges).
Proof.
  intros He. unfold Extra.vertices.
  split; apply in_flat_map; exists (u, n); (split; [exact He|]); cbn; tauto.
Qed.

Lemma walk_starts u w : Extra.walk edges u w -> exists n, In (u, n) edges.
Proof. induction 1 as [u v He | u v w _ IH _]; [now exists v | exact IH]. Qed.

Lemma walk_closed (D : string -> Prop) u w :
  (forall n, In (u, n) edges -> D n) ->
  (forall x n, D x -> In (x, n) edges -> D n) ->
  Extra.walk edges u w -> D w.
Proof.
  intros Hu Hd. induction 1 as [u v He | u v w _ IH He]; [now apply Hu|].
  apply (Hd v); [now apply IH | exact He].
Qed.

Lemma dfs_complete fuel : forall visited path vertex vis',
  Extra.search_inv edges visited path ->
  List.NoDup path ->
  (forall p, In p path -> In p (Extra.vertices edges)) ->
  In vertex (Extra.vertices edges) ->
  ~ In vertex visited ->
  (2 * length edges + 1 <= fuel + length path)%nat ->
  Schemas.dfs edges fuel visited path vertex = (false, vis') ->
  (forall x, In x visited -> In x vis') /\ In vertex vis'
  /\ Extra.search_inv edges vis' path.
Proof.
  induction fuel as [|fuel IH];
    intros visited path vertex vis' Hinv Hnd Hsub Hv Hnv Hfuel.
  - exfalso.
    assert (length (vertex :: path) <= length (Extra.vertices edges))%nat as Hlen.
    { apply NoDup_incl_length.
      - constructor; [|exact Hnd]. intros Hp. apply Hnv. now apply Hinv.
      - intros x [<- | Hx]; [exact Hv | now apply Hsub]. }
    rewrite vertices_length in Hlen. cbn [length] in Hlen. lia.
  - cbn [Schemas.dfs].
    assert (Hpv : ~ In vertex path) by (intros Hp; apply Hnv; now apply Hinv).
    assert (I1 : Extra.search_inv edges (vertex :: visited) (vertex :: path)).
    { destruct Hinv as [Ha Hb]. split.
      - intros p [<- | Hp]; [now left | right; now apply Ha].
      - intros u [<- | Hu] Hup; [exfalso; apply Hup; now left|].
        assert (Hup' : ~ In u path) by (intros Hp; apply Hup; now right).
        destruct (Hb u Hu Hup') as [Hsucc Hw]. split; [|exact Hw].
        intros n Hn. destruct (Hsucc n Hn) as [Hnv' Hnp]. split; [now right|].
        intros [<- | Hp]; [contradiction | contradiction]. }
    assert (Hnd1 : List.NoDup (vertex :: path)) by (constructor; assumption).
    assert (Hsub1 : forall p, In p (vertex :: path) -> In p (Extra.vertices edges))
      by (intros p [<- | Hp]; [exact Hv | now apply Hsub]).
    match goal with |- fold_left ?f _ _ = _ -> _ => set (step := f) end.
    assert (Hloop : forall ns st vis2,
              (forall n, In n ns -> In (vertex, n) edges) ->
              fold_left step ns st = (false, vis2) ->
              st.1 = false
              /\ (Extra.search_inv edges st.2 (vertex :: path) ->
                  (forall x, In x st.2 -> In x vis2)
                  /\ Extra.search_inv edges vis2 (vertex :: path)
                  /\ forall n, In n ns -> In n vis2 /\ ~ In n (vertex :: path))).
    { induction ns as [|n ns IHns]; intros st vis2 Hns Hres.
      - cbn in Hres. subst st. split; [reflexivity|]. intros Hi.
        split; [auto|]. split; [exact Hi | intros n []].
      - cbn [fold_left] in Hres.
        apply IHns in Hres; [|intros m Hm; apply Hns; now right].
        destruct Hres as [Hfound Hrest].
        assert (Hn : In (vertex, n) edges) by (apply Hns; now left).
        destruct st as [found vis]. unfold step in Hfound, Hrest.
        destruct found; [discriminate|]. split; [reflexivity|]. cbn [fst snd].
        intros Hi.
        destruct (list_in n vis) eqn:Ev; cbn [negb] in Hfound, Hrest.
        + destruct (list_in n (vertex :: path)) eqn:Ep; [discriminate|].
          cbn [fst snd] in Hrest. destruct (Hrest Hi) as (Hincl & Hi2 & Hall).
          split; [exact Hincl|]. split; [exact Hi2|].
          intros m [<- | Hm]; [|now apply Hall].
          split; [apply Hincl; now apply list_in_true|].
          intros Hp. apply list_in_true in Hp. congruence.
        + destruct (Schemas.dfs edges fuel vis (vertex :: path) n) as [b vis1] eqn:Ed.
          cbn [fst snd] in Hfound, Hrest. subst b.
          assert (Hnvis : ~ In n vis)
            by (intros Hin; apply list_in_true in Hin; congruence).
          apply IH in Ed; [| exact Hi | exact Hnd1 | exact Hsub1
                           | now apply (edge_vertices vertex n) | exact Hnvis
                           | cbn [length]; lia].
          destruct Ed as (Hincl1 & Hn1 & Hi1).
          destruct (Hrest Hi1) as (Hincl & Hi2 & Hall).
          split; [intros x Hx; apply Hincl; now apply Hincl1|]. split; [exact Hi2|].
          intros m [<- | Hm]; [|now apply Hall].
          split; [now apply Hincl|]. intros Hp. apply Hnvis. now apply Hi. }
    intros Hres.
    destruct (Hloop _ _ _ (neighbours_edge edges vertex) Hres) as [_ Hl].
    destruct (Hl I1) as (Hincl & [Ha Hb] & Hall). cbn [snd] in Hincl.
    split; [intros x Hx; apply Hincl; now right|].
    split; [apply Hincl; now left|].
    split; [intros p Hp; apply Ha; now right|].
    intros u Hu Hup. destruct (string_dec u vertex) as [-> | Hne].
    + split.
      * intros n Hn. apply edge_neighbours in Hn. destruct (Hall n Hn) as [Hn1 Hn2].
        split; [exact Hn1|]. intros Hp. apply Hn2. now right.
      * intros Hw.
        apply (walk_closed (fun x => In x vis' /\ ~ In x (vertex :: path))) in Hw.
        -- apply (proj2 Hw). now left.
        -- intros n Hn. apply Hall. now apply edge_neighbours.
        -- intros x n [Hx1 Hx2] Hxn. now apply (Hb x Hx1 Hx2).
    + assert (Hup1 : ~ In u (vertex :: path))
        by (intros [Heq | Hp]; [now apply Hne | now apply Hup]).
      destruct (Hb u Hu Hup1) as [Hsucc Hw]. split; [|exact Hw].
      intros n Hn. destruct (Hsucc n Hn) as [Hn1 Hn2].
      split; [exact Hn1|]. intros Hp. apply Hn2. now right.
Qed.

Lemma sources_complete u n : In (u, n) edges -> In u (Schemas.sources edges).
Proof.
  unfold Schemas.sources. intros He.
  assert (Hgen : forall es acc,
            (In u acc \/ In (u, n) es) ->
            In u (fold_left (fun acc e => if list_in e.1 acc then acc
                                          else (acc ++ [e.1])%list) es acc)).
  { induction es as [|e es IHes]; intros acc [Hacc | Hes]; cbn [fold_left].
    - exact Hacc.
    - destruct Hes.
    - apply IHes. left. destruct (list_in e.1 acc); [exact Hacc|].
      apply in_or_app. now left.
    - destruct Hes as [-> | Hes]; [|apply IHes; now right].
      apply IHes. left. cbn [fst]. destruct (list_in u acc) eqn:E.
      + now apply list_in_true.
      + apply in_or_app. right. now left. }
  apply Hgen. now right.
Qed.

Lemma sources_vertices u : In u (Schemas.sources edges) -> In u (Extra.vertices edges).
Proof.
  unfold Schemas.sources.
  assert (Hgen : forall es acc,
            In u (fold_left (fun acc e => if list_in e.1 acc then acc
                                          else (acc ++ [e.1])%list) es acc) ->
            In u acc \/ In u (Extra.vertices es)).
  { induction es as [|e es IHes]; intros acc Hu; cbn [fold_left] in Hu; [now left|].
    apply IHes in Hu. unfold Extra.vertices. cbn [flat_map].
    destruct Hu as [Hu | Hu]; [|right; apply in_or_app; now right].
    destruct (list_in e.1 acc); [now left|].
    apply in_app_or in Hu. destruct Hu as [Hu | [<- | []]]; [now left|].
    right. now left. }
  intros Hu. apply Hgen in Hu. destruct Hu as [[] | Hu]. exact Hu.
Qed.

Lemma has_cycle_complete :
  Schemas._has_cycle edges = false -> forall v, ~ Extra.walk edges v v.
Proof.
  unfold Schemas._has_cycle.
  match goal with |- fst (fold_left ?f _ _) = _ -> _ => set (step := f) end.
  assert (Hloop : forall vs st vis2,
            (forall v, In v vs -> In v (Extra.vertices edges)) ->
            fold_left step vs st = (false, vis2) ->
            st.1 = false
            /\ (Extra.search_inv edges st.2 [] ->
                (forall x, In x st.2 -> In x vis2)
                /\ Extra.search_inv edges vis2 []
                /\ forall v, In v vs -> In v vis2)).
  { induction vs as [|v vs IHvs]; intros st vis2 Hvs Hres.
    - cbn in Hres. subst st. split; [reflexivity|]. intros Hi.
      split; [auto|]. split; [exact Hi | intros v []].
    - cbn [fold_left] in Hres.
      apply IHvs in Hres; [|intros m Hm; apply Hvs; now right].
      destruct Hres as [Hfound Hrest].
      destruct st as [found vis]. unfold step in Hfound, Hrest.
      destruct found; [discriminate|]. split; [reflexivity|]. cbn [fst snd].
      intros Hi.
      destruct (list_in v vis) eqn:Ev; cbn [negb] in Hfound, Hrest.
      + cbn [fst snd] in Hrest. destruct (Hrest Hi) as (Hincl & Hi2 & Hall).
        split; [exact Hincl|]. split; [exact Hi2|].
        intros m [<- | Hm]; [|now apply Hall].
        apply Hincl. now apply list_in_true.
      + destruct (Schemas.dfs edges _ vis [] v) as [b vis1] eqn:Ed.
        cbn [fst snd] in Hfound, Hrest. subst b.
        apply dfs_complete in Ed;
          [| exact Hi | constructor | intros p [] | apply Hvs; now left
           | intros Hin; apply list_in_true in Hin; congruence
           | cbn [length]; lia].
        destruct Ed as (Hincl1 & Hv1 & Hi1).
        destruct (Hrest Hi1) as (Hincl & Hi2 & Hall).
        split; [intros x Hx; apply Hincl; now apply Hincl1|]. split; [exact Hi2|].
        intros m [<- | Hm]; [now apply Hincl | now apply Hall]. }
  intros Hres v Hw.
  destruct (fold_left step (Schemas.sources edges) (false, [])) as [b vis'] eqn:Ef.
  cbn [fst] in Hres. subst b.
  apply Hloop in Ef; [|intros u Hu; now apply sources_vertices].
  destruct Ef as [_ Hl]. destruct Hl as (_ & [_ Hb] & Hall).
  { split; [intros p [] | intros u []]. }
  destruct (walk_starts _ _ Hw) as [n Hn].
  assert (Hv : In v vis') by (apply Hall; now apply (sources_complete v n)).
  destruct (Hb v Hv) as [_ Hnw]; [intros [] | contradiction].
Qed.
End CycleCheckComplete.

(** [_has_cycle] answers True exactly when the edges contain a closed
    walk: the depth-first search misses no cycle and reports none that is
    not there. *)
Theorem has_cycle_exact (edges : list (string * string)) :
  Schemas._has_cycle edges = true <-> exists v, Extra.walk edges v v.
Proof.
  split; [apply has_cycle_sound|]. intros [v Hw].
  destruct (Schemas._has_cycle edges) eqn:E; [reflexivity|].
  exfalso. exact (has_cycle_complete edges E v Hw).
Qed.

(** [GraphSchema.validate_relationships] returns the relationships as they
    are or raises.  A graph without nodes is accepted as it is.  Otherwise
    the relationships are accepted exactly when every endpoint is the id of
    a node and, for a PREREQUISITE_GRAPH, they contain no closed walk. *)
Theorem validate_relationships_spec (graph_type : string) (node_ids : list string)
    (edges : list (string * string)) :
  (forall out, Schemas.validate_relationships graph_type node_ids edges = Ok out ->
               out = edges)
  /\ (node_ids = [] ->
      Schemas.validate_relationships graph_type node_ids edges = Ok edges)
  /\ (node_ids <> [] ->
      (Schemas.validate_relationships graph_type node_ids edges = Ok edges <->
       (forall u v, In (u, v) edges -> In u node_ids /\ In v node_ids)
       /\ (graph_type = "PREREQUISITE_GRAPH" -> forall v, ~ Extra.walk edges v v))).
Proof.
  split; [|split].
  - intros out. unfold Schemas.validate_relationships.
    destruct node_ids as [|i ids]; [intros Heq; now injection Heq as <-|].
    destruct (List.find _ edges); [discriminate|].
    destruct (_ && _); [discriminate|]. intros Heq. now injection Heq as <-.
  - intros ->. reflexivity.
  - intros Hne. unfold Schemas.validate_relationships.
    destruct node_ids as [|i ids] eqn:En; [contradiction|]. rewrite <- En. clear Hne.
    destruct (List.find _ edges) as [e|] eqn:Ef.
    + split; [discriminate|]. intros [Hends _]. exfalso.
      apply find_some in Ef. destruct Ef as [He Hbad]. destruct e as [u v].
      destruct (Hends u v He) as [Hu Hv]. cbn [fst snd] in Hbad.
      apply list_in_true in Hu, Hv. rewrite Hu, Hv in Hbad. discriminate.
    + assert (Hends : forall u v, In (u, v) edges -> In u node_ids /\ In v node_ids).
      { intros u v Huv. pose proof (find_none _ _ Ef (u, v) Huv) as Hn. cbn in Hn.
        apply negb_false_iff, andb_true_iff in Hn. destruct Hn as [Hu Hv].
        split; now apply list_in_true. }
      destruct (String.eqb_spec graph_type "PREREQUISITE_GRAPH") as [Hty | Hty];
        cbn [andb].
      * destruct (Schemas._has_cycle edges) eqn:Ec.
        -- split; [discriminate|]. intros [_ Hacyclic]. exfalso.
           apply has_cycle_sound in Ec. destruct Ec as [v Hw].
           exact (Hacyclic Hty v Hw).
        -- split; [|reflexivity]. intros _. split; [exact Hends|].
           intros _. now apply has_cycle_complete.
      * split; [|reflexivity]. intros _. split; [exact Hends|]. congruence.
Qed.
